(** * Request signing and dispatch of the Gemini and Bittrex REST clients

    A shallow embedding of [src/index.ts] (the Gemini client) and of the
    Bittrex client ([signMessage], [getRawAgent], [getClient]), followed by
    the properties of the signing protocol and of the request dispatcher.

    Layout: JavaScript values and object spread ([Js]); the collaborators
    that live outside the repository ([Externals]); the effects of an
    [async] method ([Effects]); the two clients ([Gemini], [Bittrex]);
    then the lemmas and theorems. *)

From Stdlib Require Import String List ZArith Bool Lia DecimalString.
Import ListNotations.
Open Scope string_scope.
Set Warnings "-register-all".

(* ================================================================== *)
(** ** JavaScript values *)
(* ================================================================== *)

Module Js.

(** The values that flow through the two clients.  A number is modelled
    by an integer: every number the code computes itself is a millisecond
    clock reading or that reading times 1000, which is exact on doubles
    for any realistic clock.  An object is the list of its own enumerable
    properties in enumeration order, which is the order in which
    [qs.stringify] and [JSON.stringify] visit them. *)
Inductive value : Type :=
| VUndefined
| VNull
| VBool (b : bool)
| VNum (n : Z)
| VStr (s : string)
| VObj (props : list (string * value)).

Definition obj : Type := list (string * value).

(** [o[k]] restricted to own properties; [None] when [k] is absent. *)
Fixpoint lookup (k : string) (o : obj) : option value :=
  match o with
  | [] => None
  | (k', v) :: rest => if String.eqb k k' then Some v else lookup k rest
  end.

(** [o.k]: an absent property reads as [undefined]. *)
Definition get (o : obj) (k : string) : value :=
  match lookup k o with
  | Some v => v
  | None => VUndefined
  end.

(** [o[k] = v] on an object under construction: an existing key keeps its
    place and takes the new value, a new key goes last. *)
Fixpoint set_prop (k : string) (v : value) (o : obj) : obj :=
  match o with
  | [] => [(k, v)]
  | (k', v') :: rest =>
      if String.eqb k k' then (k', v) :: rest
      else (k', v') :: set_prop k v rest
  end.

(** [{ ...base, ...src }]: the properties of [src] are assigned onto
    [base] one after the other. *)
Definition spread (base src : obj) : obj :=
  fold_left (fun acc kv => set_prop (fst kv) (snd kv) acc) src base.

(** The characters of a string as index-keyed properties, which is what
    spreading a string enumerates. *)
Fixpoint chars_from (i : nat) (s : string) : obj :=
  match s with
  | EmptyString => []
  | String c rest =>
      (NilZero.string_of_uint (Nat.to_uint i), VStr (String c EmptyString))
        :: chars_from (S i) rest
  end.

(** The properties that [...v] contributes to an object literal:
    [null], [undefined], numbers and booleans contribute none. *)
Definition own_props (v : value) : obj :=
  match v with
  | VObj ps => ps
  | VStr s => chars_from 0 s
  | _ => []
  end.

(** An optional object argument: [None] is an omitted ([undefined]) or
    [null] argument. *)
Definition optional (o : option obj) : obj :=
  match o with
  | Some ps => ps
  | None => []
  end.

Definition of_optional (o : option obj) : value :=
  match o with
  | Some ps => VObj ps
  | None => VUndefined
  end.

(** ToBoolean, as used by [!], [||] and [?:]. *)
Definition truthy (v : value) : bool :=
  match v with
  | VUndefined | VNull => false
  | VBool b => b
  | VNum n => negb (Z.eqb n 0)
  | VStr s => negb (String.eqb s "")
  | VObj _ => true
  end.

(** [a || b]. *)
Definition or_else (a b : value) : value := if truthy a then a else b.

(** What a [throw] or a rejected promise carries: a value, or the
    [TypeError] raised by reading property [prop] of [undefined] or
    [null]. *)
Inductive thrown : Type :=
| Thrown (v : value)
| TypeError (prop : string).

(** [v.k] on an arbitrary value.  Reading a property of [undefined] or
    [null] throws; a primitive has none of the properties the
    dispatchers read ([response], [data], [error]). *)
Definition member (v : value) (k : string) : thrown + value :=
  match v with
  | VUndefined | VNull => inl (TypeError k)
  | VObj ps => inr (get ps k)
  | VBool _ | VNum _ | VStr _ => inr VUndefined
  end.

End Js.
Import Js.

(* ================================================================== *)
(** ** Collaborators outside the repository *)
(* ================================================================== *)

Inductive hash_algorithm : Type := sha384 | sha512.

(** The library functions the clients call and whose results they only
    pass on. *)
Record Externals : Type := {
  (** [crypto.createHmac(alg, key).update(msg).digest('hex')] *)
  hmac_hex : hash_algorithm -> string -> string -> string;
  (** [new Buffer(s).toString('base64')] *)
  base64 : string -> string;
  (** [JSON.stringify] of an object *)
  JSON_stringify : value -> string;
  (** the percent-encoder [qs] applies to every key and value *)
  uri_encode : string -> string;
  (** [String(n)] and [n.toString()] of a number *)
  number_to_string : Z -> string
}.

Section Conversions.

Variable E : Externals.

(** ToString, as applied by a template literal. *)
Definition to_string (v : value) : string :=
  match v with
  | VUndefined => "undefined"
  | VNull => "null"
  | VBool true => "true"
  | VBool false => "false"
  | VNum n => number_to_string E n
  | VStr s => s
  | VObj _ => "[object Object]"
  end.

(** [qs.stringify] with its default options, per key: lib/stringify.js
    of the [qs] package.  [undefined] yields no entry, [null] is turned
    into the empty string, a primitive yields [key=value] with both sides
    encoded, an object recurses with the key [prefix[k]]. *)
Fixpoint qs_entries (prefix : string) (v : value) : list string :=
  match v with
  | VUndefined => []
  | VNull => [uri_encode E prefix ++ "=" ++ uri_encode E ""]
  | VBool b => [uri_encode E prefix ++ "=" ++ uri_encode E (to_string (VBool b))]
  | VNum n => [uri_encode E prefix ++ "=" ++ uri_encode E (number_to_string E n)]
  | VStr s => [uri_encode E prefix ++ "=" ++ uri_encode E s]
  | VObj ps =>
      (fix each (l : list (string * value)) : list string :=
         match l with
         | [] => []
         | (k, x) :: rest =>
             List.app (qs_entries (prefix ++ "[" ++ k ++ "]") x) (each rest)
         end) ps
  end.

(** The entries of a whole query object, in key order. *)
Definition qs_pairs (ps : obj) : list string :=
  flat_map (fun kv => qs_entries (fst kv) (snd kv)) ps.

(** [qs.stringify(v)]: the entries joined by [&]; anything that is not
    an object gives the empty string. *)
Definition qs_stringify (v : value) : string :=
  match v with
  | VObj ps => String.concat "&" (qs_pairs ps)
  | _ => ""
  end.

End Conversions.

(* ================================================================== *)
(** ** Effects of the client methods *)
(* ================================================================== *)

Module Effects.

(** Convenient container for API keys. *)
Record IApiAuth : Type := {
  publicKey : string;
  privateKey : string
}.

(** [this.auth] as a JavaScript value. *)
Definition auth_value (a : option IApiAuth) : value :=
  match a with
  | None => VUndefined
  | Some k => VObj [("publicKey", VStr (publicKey k));
                    ("privateKey", VStr (privateKey k))]
  end.

(** How the promise returned by an [async] method settles. *)
Inductive settled : Type :=
| Resolved (response : value)
| Rejected (reason : thrown).

(** A method body as a tree of the effects it performs, in order:
    reading and assigning [this.auth], reading the clock, and awaiting
    the HTTP transport, which answers with a response ([inr]) or fails
    with an error ([inl]). *)
Inductive prog (A : Type) : Type :=
| Ret (a : A)
| ReadAuth (k : option IApiAuth -> prog A)
| WriteAuth (a : IApiAuth) (k : prog A)
| Now (k : Z -> prog A)
| Axios (cfg : obj) (k : value + value -> prog A).

Arguments Ret {A} a.
Arguments ReadAuth {A} k.
Arguments WriteAuth {A} a k.
Arguments Now {A} k.
Arguments Axios {A} cfg k.

Fixpoint bind {A B : Type} (p : prog A) (f : A -> prog B) : prog B :=
  match p with
  | Ret a => f a
  | ReadAuth k => ReadAuth (fun a => bind (k a) f)
  | WriteAuth a k => WriteAuth a (bind k f)
  | Now k => Now (fun t => bind (k t) f)
  | Axios cfg k => Axios cfg (fun r => bind (k r) f)
  end.

(** The client as the methods see it, and the world around it: the
    stored credentials and the requests handed to the transport so far,
    oldest first. *)
Record world : Type := {
  auth : option IApiAuth;
  wire : list obj
}.

(** Runs a method at clock reading [clock] against a transport. *)
Fixpoint run {A : Type} (clock : Z) (transport : obj -> value + value)
         (p : prog A) (w : world) : A * world :=
  match p with
  | Ret a => (a, w)
  | ReadAuth k => run clock transport (k (auth w)) w
  | WriteAuth a k =>
      run clock transport k {| auth := Some a; wire := wire w |}
  | Now k => run clock transport (k clock) w
  | Axios cfg k =>
      run clock transport (k (transport cfg))
          {| auth := auth w; wire := List.app (wire w) [cfg] |}
  end.

End Effects.
Import Effects.

Notation "x <- p ;; q" := (bind p (fun x => q))
  (at level 61, p at next level, right associativity).

(** Sequencing of property reads that may throw. *)
Definition and_then {A B : Type} (r : thrown + A) (f : A -> thrown + B)
  : thrown + B :=
  match r with
  | inl t => inl t
  | inr a => f a
  end.

Notation "x <-? r ;; q" := (and_then r (fun x => q))
  (at level 61, r at next level, right associativity).

(** The [catch] block shared by both private dispatchers:
    [err.response.data.error || err.response.data || err.response || err]. *)
Definition rejectionReason (err : value) : thrown + value :=
  response <-? member err "response" ;;
  data <-? member response "data" ;;
  error <-? member data "error" ;;
  inr (or_else (or_else (or_else error data) response) err).

(** What the promise of a private call rejects with once the transport has
    failed with [err]: the normalized reason, or whatever computing it
    threw. *)
Definition rejection (err : value) : settled :=
  match rejectionReason err with
  | inr reason => Rejected (Thrown reason)
  | inl t => Rejected t
  end.

Definition unauthenticated : string :=
  "api keys are required to access private endpoints".

(* ================================================================== *)
(** ** The Gemini client (src/index.ts) *)
(* ================================================================== *)

Module Gemini.
Section Client.

Variable E : Externals.

(** Default configuration. *)
Definition defaultConfig : obj :=
  [("rootUrl", VStr "https://api.gemini.com");
   ("timeout", VNum 10000);
   ("version", VStr "v1")].

(** Default HTTP agent configuration. *)
Definition defaultAgentConfig : obj :=
  [("baseURL", get defaultConfig "rootUrl");
   ("headers", VObj
      [("Cache-Control", VStr "no-cache");
       ("Content-Length", VNum 0);
       ("Content-Type", VStr "text/plain");
       ("User-Agent", VStr "Gemini API Client (gemini-api node package)")]);
   ("method", VStr "GET");
   ("timeout", get defaultConfig "timeout")].

Definition publicAgentConfig : obj := spread [] defaultAgentConfig.

Definition privateAgentConfig : obj :=
  set_prop "method" (VStr "POST") (spread [] defaultAgentConfig).

Record ISignature : Type := {
  digest : string;
  payload : string
}.

(** [signMessage(path, postData, secret)]; the nonce is the clock reading
    printed as a string. *)
Definition signMessage (path : string) (postData : option obj)
           (secret : string) : prog ISignature :=
  Now (fun now =>
    let nonce := number_to_string E now in
    let body :=
      set_prop "request" (VStr path)
        (set_prop "nonce" (VStr nonce) (spread [] (optional postData))) in
    let payload := base64 E (JSON_stringify E (VObj body)) in
    let digest := hmac_hex E sha384 secret payload in
    Ret {| payload := payload; digest := digest |}).

(** The client as [getClient(auth)] returns it; nothing has been sent. *)
Definition getClient (auth : option IApiAuth) : world :=
  {| auth := auth; wire := [] |}.

Definition getPublicEndpoint (endpoint : string) (queryParams : value)
           (configOverride : option obj) : prog settled :=
  let config := spread (spread [] defaultConfig) (optional configOverride) in
  let uri := to_string E (get config "version") ++ "/" ++ endpoint ++ "?"
             ++ qs_stringify E queryParams in
  let agentConfig := set_prop "url" (VStr uri) (spread [] publicAgentConfig) in
  Axios agentConfig (fun r =>
    match r with
    | inr response => Ret (Resolved response)
    | inl err => Ret (Rejected (Thrown err))
    end).

(** [isUpgraded() { return this.auth; }] *)
Definition isUpgraded : prog value :=
  ReadAuth (fun a => Ret (auth_value a)).

(** [JSON.stringify(data)] of the optional post body: [undefined] stays
    [undefined]. *)
Definition stringified (data : option obj) : value :=
  match data with
  | Some o => VStr (JSON_stringify E (VObj o))
  | None => VUndefined
  end.

(** The keys are read from [this.auth] once the guard has passed; the reads
    of [privateKey] and [publicKey] happen in the same synchronous stretch
    and are modelled by one read. *)
Definition postToPrivateEndpoint (endpoint : string) (data : option obj)
           (configOverride : option obj) : prog settled :=
  up <- isUpgraded ;;
  if negb (truthy up) then Ret (Rejected (Thrown (VStr unauthenticated)))
  else
    let config := spread (spread [] defaultConfig) (optional configOverride) in
    let uri := "/" ++ to_string E (get config "version") ++ "/" ++ endpoint in
    ReadAuth (fun a =>
      match a with
      | None => Ret (Rejected (TypeError "privateKey"))
      | Some keys =>
          signatureData <- signMessage uri data (privateKey keys) ;;
          let headers :=
            spread (spread [] (own_props (get privateAgentConfig "headers")))
              [("X-GEMINI-APIKEY", VStr (publicKey keys));
               ("X-GEMINI-PAYLOAD", VStr (payload signatureData));
               ("X-GEMINI-SIGNATURE", VStr (digest signatureData))] in
          let agentConfig :=
            set_prop "data" (stringified data)
              (set_prop "url" (VStr uri)
                 (set_prop "headers" (VObj headers)
                    (spread [] privateAgentConfig))) in
          Axios agentConfig (fun r =>
            match r with
            | inr response => Ret (Resolved response)
            | inl err => Ret (rejection err)
            end)
      end).

(** [upgrade(newAuth) { this.auth = newAuth; }] *)
Definition upgrade (newAuth : IApiAuth) : prog unit :=
  WriteAuth newAuth (Ret tt).

End Client.
End Gemini.

(* ================================================================== *)
(** ** The Bittrex client *)
(* ================================================================== *)

Module Bittrex.
Section RawAgent.

Variable E : Externals.

(** Default configuration. *)
Definition defaultConfig : obj :=
  [("rootUrl", VStr "https://bittrex.com/api");
   ("timeout", VNum 3000);
   ("version", VStr "v1.1")].

(** Default HTTP agent configuration. *)
Definition defaultAgentConfig : obj :=
  [("baseURL", get defaultConfig "rootUrl");
   ("headers", VObj
      [("Cache-Control", VStr "no-cache");
       ("Content-Type", VStr "application/json");
       ("User-Agent",
        VStr "Bittrex API Client (bittrex-cryptoexchange-api node package)")]);
   ("method", VStr "GET");
   ("timeout", get defaultConfig "timeout")].

Definition publicAgentConfig : obj := spread [] defaultAgentConfig.

Definition privateAgentConfig : obj := spread [] defaultAgentConfig.

Record ISignature : Type := {
  digest : string;
  fullUrl : string
}.

(** [signMessage(fullPath, queryParams, secret)] *)
Definition signMessage (fullPath : string) (queryParams : value)
           (secret : string) : ISignature :=
  let uri := fullPath ++ "?" ++ qs_stringify E queryParams in
  let digest := hmac_hex E sha512 secret uri in
  {| fullUrl := uri; digest := digest |}.

(** The raw agent as [getRawAgent(auth)] returns it. *)
Definition getRawAgent (auth : option IApiAuth) : world :=
  {| auth := auth; wire := [] |}.

Definition getPublicEndpoint (endpoint : string) (queryParams : value)
           (configOverride : option obj) : prog settled :=
  let config := spread (spread [] defaultConfig) (optional configOverride) in
  let uri := to_string E (get config "version") ++ "/" ++ endpoint ++ "?"
             ++ qs_stringify E queryParams in
  let agentConfig :=
    spread (set_prop "url" (VStr uri) (spread [] publicAgentConfig)) config in
  Axios agentConfig (fun r =>
    match r with
    | inr response => Ret (Resolved response)
    | inl err => Ret (Rejected (Thrown err))
    end).

(** [isUpgraded() { return this.auth; }] *)
Definition isUpgraded : prog value :=
  ReadAuth (fun a => Ret (auth_value a)).

(** The locals of [getPrivateEndpoint] once the guard has passed, for the
    keys [keys] and the clock reading [now]. *)
Definition privateConfig (configOverride : option obj) : obj :=
  spread (spread [] defaultConfig) (optional configOverride).

Definition privateUri (config : obj) (endpoint : string) : string :=
  to_string E (get config "rootUrl") ++ "/"
  ++ to_string E (get config "version") ++ "/" ++ endpoint.

Definition securityParams (keys : IApiAuth) (now : Z) : obj :=
  [("apiKey", VStr (publicKey keys)); ("nonce", VNum (now * 1000))].

Definition scrubbedParams (keys : IApiAuth) (now : Z) (params : option obj)
  : obj :=
  spread (spread [] (optional params)) (securityParams keys now).

Definition signatureData (keys : IApiAuth) (now : Z) (config : obj)
           (endpoint : string) (params : option obj) : ISignature :=
  signMessage (privateUri config endpoint)
              (VObj (scrubbedParams keys now params)) (privateKey keys).

Definition headersOverride (config : obj) : value :=
  if truthy (get config "headers") then get config "headers" else VNull.

Definition privateHeaders (sig : ISignature) (config : obj) : obj :=
  spread
    (set_prop "apisign" (VStr (digest sig))
       (spread [] (own_props (get privateAgentConfig "headers"))))
    (own_props (headersOverride config)).

Definition privateAgentRequest (sig : ISignature) (config : obj) : obj :=
  spread
    (set_prop "url" (VStr (fullUrl sig))
       (set_prop "headers" (VObj (privateHeaders sig config))
          (spread [] privateAgentConfig)))
    config.

(** The keys are read from [this.auth] once the guard has passed; the reads
    of [publicKey] and [privateKey] happen in the same synchronous stretch
    and are modelled by one read. *)
Definition getPrivateEndpoint (endpoint : string) (params : option obj)
           (configOverride : option obj) : prog settled :=
  up <- isUpgraded ;;
  if negb (truthy up) then Ret (Rejected (Thrown (VStr unauthenticated)))
  else
    let config := privateConfig configOverride in
    ReadAuth (fun a =>
      match a with
      | None => Ret (Rejected (TypeError "publicKey"))
      | Some keys =>
          Now (fun now =>
            let sig := signatureData keys now config endpoint params in
            let agentConfig := privateAgentRequest sig config in
            Axios agentConfig (fun r =>
              match r with
              | inr response => Ret (Resolved response)
              | inl err => Ret (rejection err)
              end))
      end).

(** [upgrade(newAuth) { this.auth = newAuth; }] *)
Definition upgrade (newAuth : IApiAuth) : prog unit :=
  WriteAuth newAuth (Ret tt).

End RawAgent.
End Bittrex.

(* ================================================================== *)
(** ** The typed Bittrex endpoint catalog ([getClient]) *)
(* ================================================================== *)

Module BittrexClient.
Section Catalog.

Variable E : Externals.

(** The [configOverride] the client was created with ([null] by default),
    captured by every method. *)
Variable configOverride : option obj.

(** An optional string argument as the value the method sees. *)
Definition optional_string (s : option string) : value :=
  match s with
  | Some x => VStr x
  | None => VUndefined
  end.

(** [rawAgent: getRawAgent(auth)] *)
Definition getClient (auth : option IApiAuth) : world :=
  Bittrex.getRawAgent auth.

Definition isUpgraded : prog value := Bittrex.isUpgraded.

Definition upgrade (newAuth : IApiAuth) : prog unit := Bittrex.upgrade newAuth.

Definition getMarkets : prog settled :=
  Bittrex.getPublicEndpoint E "public/getmarkets" VNull configOverride.

Definition getCurrencies : prog settled :=
  Bittrex.getPublicEndpoint E "public/getcurrencies" VNull configOverride.

Definition getTickerTape (marketSymbol : string) : prog settled :=
  Bittrex.getPublicEndpoint E "public/getticker"
    (VObj [("market", VStr marketSymbol)]) configOverride.

Definition getMarketSummaries : prog settled :=
  Bittrex.getPublicEndpoint E "public/getmarketsummaries" VNull configOverride.

Definition getMarketSummary (marketSymbol : string) : prog settled :=
  Bittrex.getPublicEndpoint E "public/getmarketsummary"
    (VObj [("market", VStr marketSymbol)]) configOverride.

(** [type: params.type ? params.type : 'both'] *)
Definition orderBookParams (params : obj) : obj :=
  set_prop "type"
    (if truthy (get params "type") then get params "type" else VStr "both")
    (spread [] params).

Definition getOrderBook (params : obj) : prog settled :=
  let scrubbedParams := orderBookParams params in
  Bittrex.getPublicEndpoint E "public/getorderbook" (VObj scrubbedParams)
    configOverride.

Definition getMarketHistory (marketSymbol : string) : prog settled :=
  Bittrex.getPublicEndpoint E "public/getmarkethistory"
    (VObj [("market", VStr marketSymbol)]) configOverride.

Definition placeLimitBuy (params : obj) : prog settled :=
  Bittrex.getPrivateEndpoint E "market/buylimit" (Some params) configOverride.

Definition placeLimitSell (params : obj) : prog settled :=
  Bittrex.getPrivateEndpoint E "market/selllimit" (Some params) configOverride.

Definition cancelOrder (id : string) : prog settled :=
  Bittrex.getPrivateEndpoint E "market/cancel"
    (Some [("uuid", VStr id)]) configOverride.

Definition getOpenOrders (marketSymbol : option string) : prog settled :=
  Bittrex.getPrivateEndpoint E "market/getopenorders"
    (Some [("market", optional_string marketSymbol)]) configOverride.

Definition getAccountBalances : prog settled :=
  Bittrex.getPrivateEndpoint E "account/getbalances" None configOverride.

Definition getBalance (currencyId : string) : prog settled :=
  Bittrex.getPrivateEndpoint E "account/getbalance"
    (Some [("currency", VStr currencyId)]) configOverride.

Definition getDepositAddress (currencyId : string) : prog settled :=
  Bittrex.getPrivateEndpoint E "account/getdepositaddress"
    (Some [("currency", VStr currencyId)]) configOverride.

Definition withdrawCrypto (params : obj) : prog settled :=
  Bittrex.getPrivateEndpoint E "account/withdraw" (Some params) configOverride.

Definition getOrder (id : string) : prog settled :=
  Bittrex.getPrivateEndpoint E "account/getorder"
    (Some [("uuid", VStr id)]) configOverride.

Definition getOrderHistory (marketSymbol : option string) : prog settled :=
  Bittrex.getPrivateEndpoint E "account/getorderhistory"
    (Some [("market", optional_string marketSymbol)]) configOverride.

Definition getWithdrawalHistory (currencyId : option string) : prog settled :=
  Bittrex.getPrivateEndpoint E "account/getwithdrawalhistory"
    (Some [("currency", optional_string currencyId)]) configOverride.

Definition getDepositHistory (currencyId : option string) : prog settled :=
  Bittrex.getPrivateEndpoint E "account/getdeposithistory"
    (Some [("currency", optional_string currencyId)]) configOverride.

(** The private operations of the catalog with their arguments, so that a
    statement can range over all of them. *)
Inductive private_operation : Type :=
| PlaceLimitBuy (params : obj)
| PlaceLimitSell (params : obj)
| CancelOrder (id : string)
| GetOpenOrders (marketSymbol : option string)
| GetAccountBalances
| GetBalance (currencyId : string)
| GetDepositAddress (currencyId : string)
| WithdrawCrypto (params : obj)
| GetOrder (id : string)
| GetOrderHistory (marketSymbol : option string)
| GetWithdrawalHistory (currencyId : option string)
| GetDepositHistory (currencyId : option string).

Definition invoke (op : private_operation) : prog settled :=
  match op with
  | PlaceLimitBuy params => placeLimitBuy params
  | PlaceLimitSell params => placeLimitSell params
  | CancelOrder id => cancelOrder id
  | GetOpenOrders marketSymbol => getOpenOrders marketSymbol
  | GetAccountBalances => getAccountBalances
  | GetBalance currencyId => getBalance currencyId
  | GetDepositAddress currencyId => getDepositAddress currencyId
  | WithdrawCrypto params => withdrawCrypto params
  | GetOrder id => getOrder id
  | GetOrderHistory marketSymbol => getOrderHistory marketSymbol
  | GetWithdrawalHistory currencyId => getWithdrawalHistory currencyId
  | GetDepositHistory currencyId => getDepositHistory currencyId
  end.

End Catalog.
End BittrexClient.

(* ================================================================== *)
(** ** The specification's reading of the query encoding *)
(* ================================================================== *)

Section SpecEncoding.

Variable E : Externals.

(** The form-encoding as the specification words it for a flat query
    object: every key is present, a key whose value is [undefined] or
    [null] with an empty value. *)
Definition spec_form_entry (kv : string * value) : string :=
  match snd kv with
  | VUndefined | VNull => uri_encode E (fst kv) ++ "="
  | v => uri_encode E (fst kv) ++ "=" ++ uri_encode E (to_string E v)
  end.

Definition spec_form_encode (v : value) : string :=
  match v with
  | VObj ps => String.concat "&" (map spec_form_entry ps)
  | _ => ""
  end.

End SpecEncoding.

(* ================================================================== *)
(** ** Stand-ins for the collaborators, for concrete evaluations *)
(* ================================================================== *)

(** Symbolic stand-ins that keep their arguments visible: the digest names
    the algorithm, the key and the message; the encoder is the identity;
    numbers print in decimal. *)
Definition sample_hmac (alg : hash_algorithm) (key msg : string) : string :=
  match alg with
  | sha384 => "hmac-sha384"
  | sha512 => "hmac-sha512"
  end ++ "(" ++ key ++ "," ++ msg ++ ")".

Definition sample_json (v : value) : string :=
  match v with
  | VObj ps => "json{" ++ String.concat "," (map fst ps) ++ "}"
  | _ => "json"
  end.

Definition sample : Externals :=
  {| hmac_hex := sample_hmac;
     base64 := fun s => "base64(" ++ s ++ ")";
     JSON_stringify := sample_json;
     uri_encode := fun s => s;
     number_to_string := fun n => NilZero.string_of_int (Z.to_int n) |}.

(** A transport that fails every request with the given error, and one that
    answers every request with the given response. *)
Definition failing (err : value) : obj -> value + value := fun _ => inl err.

Definition answering (response : value) : obj -> value + value :=
  fun _ => inr response.

(** The header [name] of a request configuration, if it has one. *)
Definition request_header (cfg : obj) (name : string) : option value :=
  match lookup "headers" cfg with
  | Some (VObj headers) => lookup name headers
  | _ => None
  end.

Definition sample_keys : IApiAuth :=
  {| publicKey := "k"; privateKey := "s" |}.

(* ================================================================== *)
(** ** The request configurations the dispatchers build *)
(* ================================================================== *)

(** The locals of the Gemini dispatchers and of the Bittrex public
    dispatcher, named so that statements can speak about the request that
    goes out. *)
Module Requests.
Section Built.

Variable E : Externals.

(** [{ ...defaultConfig, ...configOverride }] in the Gemini client. *)
Definition gemini_config (configOverride : option obj) : obj :=
  spread (spread [] Gemini.defaultConfig) (optional configOverride).

(** [uri] and [agentConfig] of the Gemini [getPublicEndpoint]. *)
Definition gemini_public_uri (endpoint : string) (queryParams : value)
           (configOverride : option obj) : string :=
  to_string E (get (gemini_config configOverride) "version") ++ "/"
  ++ endpoint ++ "?" ++ qs_stringify E queryParams.

Definition gemini_public_request (endpoint : string) (queryParams : value)
           (configOverride : option obj) : obj :=
  set_prop "url" (VStr (gemini_public_uri endpoint queryParams configOverride))
    (spread [] Gemini.publicAgentConfig).

(** [uri], [body] (inside [signMessage]), [headers] and [agentConfig] of
    [postToPrivateEndpoint], for the keys [keys] and the clock reading
    [now]. *)
Definition gemini_private_uri (endpoint : string)
           (configOverride : option obj) : string :=
  "/" ++ to_string E (get (gemini_config configOverride) "version") ++ "/"
  ++ endpoint.

Definition gemini_body (now : Z) (path : string) (postData : option obj)
  : obj :=
  set_prop "request" (VStr path)
    (set_prop "nonce" (VStr (number_to_string E now))
       (spread [] (optional postData))).

Definition gemini_signature (now : Z) (path : string)
           (postData : option obj) (secret : string) : Gemini.ISignature :=
  let payload := base64 E (JSON_stringify E (VObj (gemini_body now path postData))) in
  {| Gemini.payload := payload;
     Gemini.digest := hmac_hex E sha384 secret payload |}.

Definition gemini_private_headers (keys : IApiAuth)
           (sig : Gemini.ISignature) : obj :=
  spread (spread [] (own_props (get Gemini.privateAgentConfig "headers")))
    [("X-GEMINI-APIKEY", VStr (publicKey keys));
     ("X-GEMINI-PAYLOAD", VStr (Gemini.payload sig));
     ("X-GEMINI-SIGNATURE", VStr (Gemini.digest sig))].

Definition gemini_private_request (now : Z) (keys : IApiAuth)
           (endpoint : string) (data configOverride : option obj) : obj :=
  let uri := gemini_private_uri endpoint configOverride in
  let sig := gemini_signature now uri data (privateKey keys) in
  set_prop "data" (Gemini.stringified E data)
    (set_prop "url" (VStr uri)
       (set_prop "headers" (VObj (gemini_private_headers keys sig))
          (spread [] Gemini.privateAgentConfig))).

(** [uri] and [agentConfig] of the Bittrex [getPublicEndpoint]. *)
Definition bittrex_public_uri (endpoint : string) (queryParams : value)
           (configOverride : option obj) : string :=
  to_string E (get (Bittrex.privateConfig configOverride) "version") ++ "/"
  ++ endpoint ++ "?" ++ qs_stringify E queryParams.

Definition bittrex_public_request (endpoint : string) (queryParams : value)
           (configOverride : option obj) : obj :=
  spread
    (set_prop "url"
       (VStr (bittrex_public_uri endpoint queryParams configOverride))
       (spread [] Bittrex.publicAgentConfig))
    (Bittrex.privateConfig configOverride).

(** [agentConfig] of the Bittrex [getPrivateEndpoint]. *)
Definition bittrex_signed_request (now : Z) (keys : IApiAuth)
           (endpoint : string) (params configOverride : option obj) : obj :=
  let config := Bittrex.privateConfig configOverride in
  Bittrex.privateAgentRequest
    (Bittrex.signatureData E keys now config endpoint params) config.

End Built.
End Requests.
Import Requests.

(* ================================================================== *)
(** ** Facts about object literals *)
(* ================================================================== *)

Module ObjFacts.

Lemma lookup_set_prop_same (k : string) (v : value) (o : obj) :
  lookup k (set_prop k v o) = Some v.
Proof.
  induction o as [| [k' v'] rest IH]; simpl.
  - now rewrite String.eqb_refl.
  - destruct (String.eqb k k') eqn:Hk; simpl; rewrite Hk; auto.
Qed.

Lemma lookup_set_prop_other (k k' : string) (v : value) (o : obj) :
  k <> k' -> lookup k (set_prop k' v o) = lookup k o.
Proof.
  intros Hne.
  induction o as [| [k0 v0] rest IH]; simpl.
  - apply String.eqb_neq in Hne. now rewrite Hne.
  - destruct (String.eqb k' k0) eqn:Hk; simpl.
    + apply String.eqb_eq in Hk. subst k0.
      apply String.eqb_neq in Hne. now rewrite Hne.
    + now rewrite IH.
Qed.

(** Spreading an object that has no property [k] leaves [k] alone. *)
Lemma lookup_spread_absent (k : string) (src base : obj) :
  lookup k src = None -> lookup k (spread base src) = lookup k base.
Proof.
  unfold spread. revert base.
  induction src as [| [k' v'] rest IH]; intros base Habs; simpl in *.
  - reflexivity.
  - destruct (String.eqb k k') eqn:Hk; [discriminate |].
    rewrite IH by assumption.
    apply lookup_set_prop_other. now apply String.eqb_neq.
Qed.

(** Assigning a key the object does not have appends it. *)
Lemma set_prop_fresh (base : obj) (k : string) (v : value) :
  lookup k base = None ->
  set_prop k v base = List.app base [(k, v)].
Proof.
  induction base as [| [k0 v0] tl IH]; simpl; intros Habs.
  - reflexivity.
  - destruct (String.eqb k k0) eqn:Hk; [discriminate |].
    now rewrite IH.
Qed.

Lemma lookup_app_absent (k : string) (a b : obj) :
  lookup k a = None -> lookup k (List.app a b) = lookup k b.
Proof.
  induction a as [| [k0 v0] tl IH]; simpl; intros Habs.
  - reflexivity.
  - destruct (String.eqb k k0); [discriminate | auto].
Qed.

(** Copying an object that lists each key once gives the same object. *)
Lemma copy_well_formed (o : obj) :
  NoDup (map fst o) -> spread [] o = o.
Proof.
  intros Hnd.
  assert (Hgen : forall base,
             (forall k, In k (map fst o) -> lookup k base = None) ->
             spread base o = List.app base o).
  { induction o as [| [k v] tl IH]; intros base Hfresh.
    - unfold spread. simpl. now rewrite app_nil_r.
    - inversion Hnd as [| ? ? Hnotin Hnd']; subst.
      unfold spread. simpl. fold (spread (set_prop k v base) tl).
      rewrite (set_prop_fresh base k v) by (apply Hfresh; simpl; auto).
      rewrite IH; auto.
      + now rewrite <- app_assoc.
      + intros k' Hin.
        rewrite lookup_app_absent by (apply Hfresh; simpl; auto).
        simpl. destruct (String.eqb k' k) eqn:Hk; [| reflexivity].
        apply String.eqb_eq in Hk. subst. contradiction. }
  apply (Hgen []). intros. reflexivity.
Qed.

(** The first binding of a key with a string value shows up among the
    encoded entries of the query. *)
Lemma qs_pairs_string_entry (E : Externals) (k s : string) (ps : obj) :
  lookup k ps = Some (VStr s) ->
  In (uri_encode E k ++ "=" ++ uri_encode E s) (qs_pairs E ps).
Proof.
  unfold qs_pairs.
  induction ps as [| [k0 v0] tl IH]; simpl; intros Hl.
  - discriminate.
  - apply in_or_app.
    destruct (String.eqb k k0) eqn:Hk.
    + apply String.eqb_eq in Hk. subst k0.
      injection Hl as ->. left. simpl. auto.
    + right. auto.
Qed.

Lemma qs_pairs_number_entry (E : Externals) (k : string) (n : Z) (ps : obj) :
  lookup k ps = Some (VNum n) ->
  In (uri_encode E k ++ "=" ++ uri_encode E (number_to_string E n))
     (qs_pairs E ps).
Proof.
  unfold qs_pairs.
  induction ps as [| [k0 v0] tl IH]; simpl; intros Hl.
  - discriminate.
  - apply in_or_app.
    destruct (String.eqb k k0) eqn:Hk.
    + apply String.eqb_eq in Hk. subst k0.
      injection Hl as ->. left. simpl. auto.
    + right. auto.
Qed.

Lemma set_prop_keys (x k : string) (v : value) (o : obj) :
  In x (map fst (set_prop k v o)) -> x = k \/ In x (map fst o).
Proof.
  induction o as [| [k0 v0] tl IH]; simpl.
  - intros [He | []]. now left.
  - destruct (String.eqb k k0) eqn:Hk; simpl.
    + tauto.
    + intros [He | Hi]; [tauto |]. destruct (IH Hi); tauto.
Qed.

(** Assignment never lists a key twice. *)
Lemma set_prop_NoDup (k : string) (v : value) (o : obj) :
  NoDup (map fst o) -> NoDup (map fst (set_prop k v o)).
Proof.
  induction o as [| [k0 v0] tl IH]; simpl; intros Hnd.
  - constructor; [tauto | constructor].
  - inversion Hnd as [| ? ? Hnotin Hnd']; subst.
    destruct (String.eqb k k0) eqn:Hk; simpl.
    + constructor; assumption.
    + constructor; [| auto].
      intros Hin. apply set_prop_keys in Hin.
      apply String.eqb_neq in Hk. destruct Hin; [congruence | contradiction].
Qed.

Lemma spread_NoDup (src base : obj) :
  NoDup (map fst base) -> NoDup (map fst (spread base src)).
Proof.
  unfold spread. revert base.
  induction src as [| [k v] tl IH]; simpl; intros base Hnd.
  - assumption.
  - apply IH. now apply set_prop_NoDup.
Qed.

End ObjFacts.
Import ObjFacts.

(* ================================================================== *)
(** ** The signing protocols *)
(* ================================================================== *)

(** C1 (as amended).  For every full path, query object and secret, the
    Bittrex [signMessage] returns [fullUrl] = full path, a question mark
    and [qs.stringify] of the query, and [digest] = the hex HMAC-SHA512 of
    that URI keyed by the secret.  In that encoding a key whose value is
    [undefined] is left out and a key whose value is [null] is kept with an
    empty value.  The result depends on the three arguments only. *)
Theorem bittrex_signMessage_signs_full_uri :
  forall (E : Externals) (fullPath : string) (queryParams : value)
         (secret : string),
    let uri := fullPath ++ "?" ++ qs_stringify E queryParams in
    Bittrex.signMessage E fullPath queryParams secret
      = {| Bittrex.fullUrl := uri;
           Bittrex.digest := hmac_hex E sha512 secret uri |}
    /\ (forall k ps,
          qs_stringify E (VObj ((k, VUndefined) :: ps))
            = qs_stringify E (VObj ps))
    /\ (forall k ps,
          qs_pairs E ((k, VNull) :: ps)
            = (uri_encode E k ++ "=" ++ uri_encode E "") :: qs_pairs E ps).
Proof.
  intros E fullPath queryParams secret uri.
  split; [reflexivity |].
  split; intros k ps; reflexivity.
Qed.

(** C1, as stated, fails: signing the query of [getOpenOrders()] called
    without a market symbol gives a URI without any [market] entry, whereas
    the encoding that keeps [undefined] keys as empty would give
    [market=&apiKey=k&nonce=1000]. *)
Lemma bittrex_signMessage_drops_undefined_keys :
  let fullPath := "https://bittrex.com/api/v1.1/market/getopenorders" in
  let queryParams :=
    VObj [("market", VUndefined); ("apiKey", VStr "k"); ("nonce", VNum 1000)] in
  Bittrex.fullUrl (Bittrex.signMessage sample fullPath queryParams "s")
    = "https://bittrex.com/api/v1.1/market/getopenorders?apiKey=k&nonce=1000"
  /\ Bittrex.fullUrl (Bittrex.signMessage sample fullPath queryParams "s")
       <> fullPath ++ "?" ++ spec_form_encode sample queryParams.
Proof.
  split; [reflexivity | vm_compute; discriminate].
Qed.

(** C2.  For every path, post body and secret, and for a fixed clock
    reading, the Gemini [signMessage] returns [payload] = base64 of the JSON
    text of the post body extended with [nonce] (the reading as a string)
    and [request] = path, both overriding fields of the same name, and
    [digest] = hex HMAC-SHA384 of that payload keyed by the secret.  It
    touches neither the client nor the transport, and the same inputs and
    reading give the same signature in every world. *)
Theorem gemini_signMessage_payload_and_digest :
  forall (E : Externals) (clock : Z) (transport : obj -> value + value)
         (w : world) (path : string) (postData : option obj)
         (secret : string),
  exists body : obj,
    run clock transport (Gemini.signMessage E path postData secret) w
      = ({| Gemini.payload := base64 E (JSON_stringify E (VObj body));
            Gemini.digest :=
              hmac_hex E sha384 secret
                       (base64 E (JSON_stringify E (VObj body))) |}, w)
    /\ lookup "nonce" body = Some (VStr (number_to_string E clock))
    /\ lookup "request" body = Some (VStr path)
    /\ (forall k, k <> "nonce" -> k <> "request" ->
          lookup k body = lookup k (spread [] (optional postData)))
    /\ (forall transport' w',
          fst (run clock transport'
                   (Gemini.signMessage E path postData secret) w')
            = fst (run clock transport
                       (Gemini.signMessage E path postData secret) w)).
Proof.
  intros E clock transport w path postData secret.
  eexists. split; [reflexivity |].
  split.
  { rewrite lookup_set_prop_other by discriminate.
    apply lookup_set_prop_same. }
  split; [apply lookup_set_prop_same |].
  split; [| reflexivity].
  intros k Hn Hr.
  now rewrite !lookup_set_prop_other by assumption.
Qed.

(** The witness of C2: signing [{amount: 1, nonce: 7}] for [/v1/order/new]
    at clock reading 1500000000000. *)
Lemma gemini_signMessage_payload_and_digest_witness :
  exists body : obj,
    run 1500000000000 (answering VNull)
        (Gemini.signMessage sample "/v1/order/new"
           (Some [("amount", VNum 1); ("nonce", VNum 7)]) "s")
        (Gemini.getClient None)
      = ({| Gemini.payload := base64 sample (JSON_stringify sample (VObj body));
            Gemini.digest :=
              hmac_hex sample sha384 "s"
                       (base64 sample (JSON_stringify sample (VObj body))) |},
         Gemini.getClient None)
    /\ lookup "nonce" body = Some (VStr "1500000000000")
    /\ lookup "amount" body = Some (VNum 1).
Proof.
  destruct (gemini_signMessage_payload_and_digest sample 1500000000000
              (answering VNull) (Gemini.getClient None) "/v1/order/new"
              (Some [("amount", VNum 1); ("nonce", VNum 7)]) "s")
    as [body [Hrun [Hnonce [_ [Hother _]]]]].
  exists body. split; [exact Hrun |]. split; [exact Hnonce |].
  rewrite Hother by discriminate. reflexivity.
Defined.

(* ================================================================== *)
(** ** The dispatchers *)
(* ================================================================== *)

(** C3.  On a client without credentials every private call (the Gemini
    [postToPrivateEndpoint], the Bittrex [getPrivateEndpoint] and every
    private operation of the Bittrex catalog) rejects with the fixed
    message, hands nothing to the transport and leaves the client as it
    was. *)
Theorem private_call_without_keys_is_rejected :
  forall (E : Externals) (clock : Z) (transport : obj -> value + value)
         (sent : list obj),
    let w := {| auth := None; wire := sent |} in
    let refusal :=
      Rejected
        (Thrown (VStr "api keys are required to access private endpoints")) in
    (forall endpoint data configOverride,
        run clock transport
            (Gemini.postToPrivateEndpoint E endpoint data configOverride) w
          = (refusal, w))
    /\ (forall endpoint params configOverride,
          run clock transport
              (Bittrex.getPrivateEndpoint E endpoint params configOverride) w
            = (refusal, w))
    /\ (forall configOverride op,
          run clock transport (BittrexClient.invoke E configOverride op) w
            = (refusal, w)).
Proof.
  intros E clock transport sent w refusal.
  split; [reflexivity |].
  split; [reflexivity |].
  intros configOverride op. destruct op; reflexivity.
Qed.

(** Where the transport error carries a response with an object body, the
    rejection reason is the body's [error] field when that is truthy, and
    the body otherwise. *)
Lemma rejectionReason_with_body (err response body : obj) :
  get err "response" = VObj response ->
  get response "data" = VObj body ->
  rejectionReason (VObj err)
    = inr (if truthy (get body "error") then get body "error" else VObj body).
Proof.
  intros Hr Hd. unfold rejectionReason. simpl.
  rewrite Hr. simpl. rewrite Hd. simpl.
  unfold or_else.
  destruct (truthy (get body "error")) eqn:Ht; simpl; rewrite ?Ht; reflexivity.
Qed.

(** C4, evaluated where the code departs from it.  A transport failure
    without a response (a network error) makes both private dispatchers
    reject with the [TypeError] of reading [data] of [undefined], not with
    the raw error; a response without a body makes them reject with the
    [TypeError] of reading [error] of [undefined], not with the response
    object.  A response body [{error: "X"}] does yield ["X"]. *)
Theorem transport_failure_without_response_rejects_with_type_error :
  forall (E : Externals) (clock : Z) (keys : IApiAuth) (sent : list obj)
         (endpoint : string) (args configOverride : option obj),
    let w := {| auth := Some keys; wire := sent |} in
    let no_response := VObj [("message", VStr "Network Error")] in
    let no_body := VObj [("response", VObj [("status", VNum 502)])] in
    let structured :=
      VObj [("response", VObj [("data", VObj [("error", VStr "X")])])] in
    fst (run clock (failing no_response)
             (Gemini.postToPrivateEndpoint E endpoint args configOverride) w)
      = Rejected (TypeError "data")
    /\ fst (run clock (failing no_response)
                (Bittrex.getPrivateEndpoint E endpoint args configOverride) w)
         = Rejected (TypeError "data")
    /\ fst (run clock (failing no_body)
                (Gemini.postToPrivateEndpoint E endpoint args configOverride) w)
         = Rejected (TypeError "error")
    /\ fst (run clock (failing no_body)
                (Bittrex.getPrivateEndpoint E endpoint args configOverride) w)
         = Rejected (TypeError "error")
    /\ fst (run clock (failing structured)
                (Gemini.postToPrivateEndpoint E endpoint args configOverride) w)
         = Rejected (Thrown (VStr "X"))
    /\ fst (run clock (failing structured)
                (Bittrex.getPrivateEndpoint E endpoint args configOverride) w)
         = Rejected (Thrown (VStr "X")).
Proof.
  intros. repeat split; reflexivity.
Qed.

(** The request a private Bittrex call issues: the guard passes, the clock
    is read once and one request goes out, built from the signature over
    the scrubbed parameters. *)
Lemma bittrex_private_request (E : Externals) (clock : Z)
      (transport : obj -> value + value) (keys : IApiAuth) (sent : list obj)
      (endpoint : string) (params configOverride : option obj) :
  let config := Bittrex.privateConfig configOverride in
  let sig := Bittrex.signatureData E keys clock config endpoint params in
  snd (run clock transport
           (Bittrex.getPrivateEndpoint E endpoint params configOverride)
           {| auth := Some keys; wire := sent |})
    = {| auth := Some keys;
         wire := List.app sent [Bittrex.privateAgentRequest sig config] |}.
Proof.
  simpl. destruct (transport _); reflexivity.
Qed.

(** Without an override of its own, a key of the request configuration is
    the one the dispatcher computed. *)
Lemma bittrex_config_absent (k : string) (configOverride : option obj) :
  lookup k Bittrex.defaultConfig = None ->
  lookup k (optional configOverride) = None ->
  lookup k (Bittrex.privateConfig configOverride) = None.
Proof.
  intros Hd Ho. unfold Bittrex.privateConfig.
  rewrite lookup_spread_absent by assumption.
  rewrite lookup_spread_absent by assumption.
  reflexivity.
Qed.

(** C5.  After [upgrade(newAuth)] the next private call uses the keys of
    [newAuth].  Gemini: the request carries [X-GEMINI-APIKEY] = the new
    public key, [X-GEMINI-PAYLOAD] = the base64 payload (whose body holds
    the nonce and the request path) and [X-GEMINI-SIGNATURE] = the hex
    HMAC-SHA384 of the payload keyed by the new private key.  Bittrex: the
    query that is signed holds [apiKey] = the new public key, and the
    signature is the hex HMAC-SHA512 of the full URI keyed by the new
    private key; that URI and that signature are the request's [url] and
    [apisign] header as long as the config override does not supply a
    [url], respectively [headers], of its own. *)
Theorem upgrade_then_private_call_uses_new_keys :
  forall (E : Externals) (clock : Z) (transport : obj -> value + value)
         (w : world) (newAuth : IApiAuth) (endpoint : string)
         (args configOverride : option obj),
    (exists (uri : string) (body headers cfg : obj),
        let payload := base64 E (JSON_stringify E (VObj body)) in
        snd (run clock transport
                 (_ <- Gemini.upgrade newAuth ;;
                  Gemini.postToPrivateEndpoint E endpoint args configOverride)
                 w)
          = {| auth := Some newAuth; wire := List.app (wire w) [cfg] |}
        /\ lookup "url" cfg = Some (VStr uri)
        /\ lookup "nonce" body = Some (VStr (number_to_string E clock))
        /\ lookup "request" body = Some (VStr uri)
        /\ lookup "headers" cfg = Some (VObj headers)
        /\ lookup "X-GEMINI-APIKEY" headers = Some (VStr (publicKey newAuth))
        /\ lookup "X-GEMINI-PAYLOAD" headers = Some (VStr payload)
        /\ lookup "X-GEMINI-SIGNATURE" headers
             = Some (VStr (hmac_hex E sha384 (privateKey newAuth) payload)))
    /\ (let config := Bittrex.privateConfig configOverride in
        let query := Bittrex.scrubbedParams newAuth clock args in
        let sig :=
          Bittrex.signMessage E (Bittrex.privateUri E config endpoint)
                              (VObj query) (privateKey newAuth) in
        let cfg := Bittrex.privateAgentRequest sig config in
        snd (run clock transport
                 (_ <- Bittrex.upgrade newAuth ;;
                  Bittrex.getPrivateEndpoint E endpoint args configOverride)
                 w)
          = {| auth := Some newAuth; wire := List.app (wire w) [cfg] |}
        /\ lookup "apiKey" query = Some (VStr (publicKey newAuth))
        /\ In (uri_encode E "apiKey" ++ "=" ++ uri_encode E (publicKey newAuth))
              (qs_pairs E query)
        /\ Bittrex.digest sig
             = hmac_hex E sha512 (privateKey newAuth) (Bittrex.fullUrl sig)
        /\ (lookup "url" (optional configOverride) = None ->
            lookup "url" cfg = Some (VStr (Bittrex.fullUrl sig)))
        /\ (lookup "headers" (optional configOverride) = None ->
            exists headers,
              lookup "headers" cfg = Some (VObj headers)
              /\ lookup "apisign" headers = Some (VStr (Bittrex.digest sig)))).
Proof.
  intros E clock transport w newAuth endpoint args configOverride.
  split.
  - set (uri := "/" ++ to_string E
                   (get (spread (spread [] Gemini.defaultConfig)
                                (optional configOverride)) "version")
                 ++ "/" ++ endpoint).
    exists uri.
    exists (set_prop "request" (VStr uri)
              (set_prop "nonce" (VStr (number_to_string E clock))
                 (spread [] (optional args)))).
    do 2 eexists. cbv zeta.
    split.
    { simpl. destruct (transport _); reflexivity. }
    split; [reflexivity |].
    split.
    { rewrite lookup_set_prop_other by discriminate.
      apply lookup_set_prop_same. }
    split; [apply lookup_set_prop_same |].
    repeat split; reflexivity.
  - cbv zeta.
    assert (Hkey : lookup "apiKey" (Bittrex.scrubbedParams newAuth clock args)
                     = Some (VStr (publicKey newAuth))).
    { unfold Bittrex.scrubbedParams, Bittrex.securityParams, spread. simpl.
      rewrite lookup_set_prop_other by discriminate.
      apply lookup_set_prop_same. }
    split.
    { simpl. destruct w as [a0 sent]. simpl.
      apply (bittrex_private_request E clock transport newAuth sent). }
    split; [exact Hkey |].
    split; [apply qs_pairs_string_entry; exact Hkey |].
    split; [reflexivity |].
    split.
    + intros Hno. unfold Bittrex.privateAgentRequest.
      rewrite lookup_spread_absent
        by (apply bittrex_config_absent; [reflexivity | exact Hno]).
      apply lookup_set_prop_same.
    + intros Hno.
      pose proof (bittrex_config_absent "headers" configOverride
                    eq_refl Hno) as Habs.
      eexists. split.
      * unfold Bittrex.privateAgentRequest.
        rewrite lookup_spread_absent by exact Habs.
        rewrite lookup_set_prop_other by discriminate.
        apply lookup_set_prop_same.
      * unfold Bittrex.privateHeaders, Bittrex.headersOverride, get.
        rewrite Habs. simpl.
        reflexivity.
Qed.

(** The witness of C5: a client upgraded with the keys [k]/[s] asking for
    its balances at clock reading 1, with no config override. *)
Lemma upgrade_then_private_call_uses_new_keys_witness :
  let config := Bittrex.privateConfig None in
  let sig :=
    Bittrex.signMessage sample
      (Bittrex.privateUri sample config "account/getbalances")
      (VObj (Bittrex.scrubbedParams sample_keys 1 None)) "s" in
  lookup "url" (optional None) = None
  /\ lookup "url" (Bittrex.privateAgentRequest sig config)
       = Some (VStr
           "https://bittrex.com/api/v1.1/account/getbalances?apiKey=k&nonce=1000")
  /\ exists headers,
       lookup "headers" (Bittrex.privateAgentRequest sig config)
         = Some (VObj headers)
       /\ lookup "apisign" headers = Some (VStr (Bittrex.digest sig)).
Proof.
  destruct (upgrade_then_private_call_uses_new_keys sample 1 (answering VNull)
              (Gemini.getClient None) sample_keys "account/getbalances"
              None None)
    as [_ [_ [_ [_ [_ [Hurl Hsign]]]]]].
  split; [reflexivity |].
  split; [exact (Hurl eq_refl) | exact (Hsign eq_refl)].
Defined.

(** C6, evaluated where the code departs from it.  When the config override
    carries [headers], the request configuration is finished by spreading
    the whole config over it, so the request's [headers] are the override's
    object alone: the [apisign] header and the base headers are in the
    request only if the override lists them itself. *)
Theorem header_override_replaces_signed_headers :
  forall (E : Externals) (clock : Z) (transport : obj -> value + value)
         (keys : IApiAuth) (sent : list obj) (endpoint : string)
         (params : option obj) (extra : obj),
    let configOverride := Some [("headers", VObj extra)] in
    exists cfg : obj,
      snd (run clock transport
               (Bittrex.getPrivateEndpoint E endpoint params configOverride)
               {| auth := Some keys; wire := sent |})
        = {| auth := Some keys; wire := List.app sent [cfg] |}
      /\ lookup "headers" cfg = Some (VObj extra)
      /\ request_header cfg "apisign" = lookup "apisign" extra
      /\ request_header cfg "User-Agent" = lookup "User-Agent" extra.
Proof.
  intros E clock transport keys sent endpoint params extra configOverride.
  eexists. split.
  - apply bittrex_private_request.
  - repeat split; reflexivity.
Qed.

(** C7, evaluated where the code departs from it.  [isUpgraded()] returns
    the stored [auth] itself: [undefined] on a client created without
    keys, the key object after [upgrade], never a boolean.  What does hold:
    the returned value is truthy exactly when keys are set, the call
    changes nothing, and [upgrade] stores the new keys in place of the
    old. *)
Theorem isUpgraded_returns_the_stored_keys :
  forall (clock : Z) (transport : obj -> value + value) (w : world)
         (newAuth : IApiAuth),
    run clock transport Gemini.isUpgraded w = (auth_value (auth w), w)
    /\ run clock transport Bittrex.isUpgraded w = (auth_value (auth w), w)
    /\ run clock transport BittrexClient.isUpgraded w
         = (auth_value (auth w), w)
    /\ fst (run clock transport Gemini.isUpgraded (Gemini.getClient None))
         = VUndefined
    /\ fst (run clock transport
                (_ <- Gemini.upgrade newAuth ;; Gemini.isUpgraded) w)
         = VObj [("publicKey", VStr (publicKey newAuth));
                 ("privateKey", VStr (privateKey newAuth))]
    /\ fst (run clock transport
                (_ <- BittrexClient.upgrade newAuth ;;
                 BittrexClient.isUpgraded) w)
         = VObj [("publicKey", VStr (publicKey newAuth));
                 ("privateKey", VStr (privateKey newAuth))]
    /\ truthy (auth_value (auth w))
         = match auth w with Some _ => true | None => false end
    /\ run clock transport (Gemini.upgrade newAuth) w
         = (tt, {| auth := Some newAuth; wire := wire w |})
    /\ run clock transport (BittrexClient.upgrade newAuth) w
         = (tt, {| auth := Some newAuth; wire := wire w |}).
Proof.
  intros clock transport w newAuth.
  repeat split; try reflexivity.
  destruct (auth w); reflexivity.
Qed.

(** Apart from [upgrade], no method assigns [this.auth]. *)
Lemma only_upgrade_changes_the_keys (E : Externals) (clock : Z)
      (transport : obj -> value + value) (w : world) (endpoint : string)
      (queryParams : value) (args configOverride : option obj) :
  auth (snd (run clock transport
                 (Gemini.getPublicEndpoint E endpoint queryParams
                    configOverride) w)) = auth w
  /\ auth (snd (run clock transport
                    (Gemini.postToPrivateEndpoint E endpoint args
                       configOverride) w)) = auth w
  /\ auth (snd (run clock transport
                    (Bittrex.getPublicEndpoint E endpoint queryParams
                       configOverride) w)) = auth w
  /\ auth (snd (run clock transport
                    (Bittrex.getPrivateEndpoint E endpoint args
                       configOverride) w)) = auth w.
Proof.
  destruct w as [[keys |] sent]; simpl;
    repeat split; repeat (destruct (transport _)); reflexivity.
Qed.

(** C8, evaluated where the code departs from it.  The Gemini dispatchers
    merge the config override into a local [config] and read only its
    [version]: whatever the override holds, the issued request keeps the
    default timeout of 10000 and the default headers (public), or the
    default headers plus the three signature headers (private).  On the
    Bittrex side the override is spread last, after the computed fields,
    so an override carrying [url] replaces the computed URL. *)
Theorem gemini_request_ignores_config_override :
  forall (E : Externals) (clock : Z) (transport : obj -> value + value)
         (keys : IApiAuth) (sent : list obj) (endpoint : string)
         (queryParams : value) (data configOverride : option obj),
    (exists cfg : obj,
        snd (run clock transport
                 (Gemini.getPublicEndpoint E endpoint queryParams
                    configOverride)
                 {| auth := None; wire := sent |})
          = {| auth := None; wire := List.app sent [cfg] |}
        /\ lookup "timeout" cfg = Some (VNum 10000)
        /\ lookup "headers" cfg = lookup "headers" Gemini.defaultAgentConfig)
    /\ (exists cfg headers : obj,
          snd (run clock transport
                   (Gemini.postToPrivateEndpoint E endpoint data
                      configOverride)
                   {| auth := Some keys; wire := sent |})
            = {| auth := Some keys; wire := List.app sent [cfg] |}
          /\ lookup "timeout" cfg = Some (VNum 10000)
          /\ lookup "headers" cfg = Some (VObj headers)
          /\ map fst headers
               = ["Cache-Control"; "Content-Length"; "Content-Type";
                  "User-Agent"; "X-GEMINI-APIKEY"; "X-GEMINI-PAYLOAD";
                  "X-GEMINI-SIGNATURE"]
          /\ lookup "User-Agent" headers
               = Some (VStr "Gemini API Client (gemini-api node package)"))
    /\ (exists cfg : obj,
          snd (run clock transport
                   (Bittrex.getPublicEndpoint E endpoint queryParams
                      (Some [("url", VStr "http://elsewhere")]))
                   {| auth := None; wire := sent |})
            = {| auth := None; wire := List.app sent [cfg] |}
          /\ lookup "url" cfg = Some (VStr "http://elsewhere")).
Proof.
  intros E clock transport keys sent endpoint queryParams data configOverride.
  split; [| split].
  - eexists. split.
    + simpl. destruct (transport _); reflexivity.
    + split; reflexivity.
  - do 2 eexists. split.
    + simpl. destruct (transport _); reflexivity.
    + repeat split; reflexivity.
  - eexists. split.
    + simpl. destruct (transport _); reflexivity.
    + reflexivity.
Qed.

(* ================================================================== *)
(** ** Parameter shaping *)
(* ================================================================== *)

(** C9 (as amended).  [getOrderBook] forwards to [public/getorderbook] the
    caller's parameters with [type] set to the supplied type when that is
    truthy (a non-empty string), and to [both] when it is omitted or
    falsy (the empty string included); the other parameters are the
    caller's.  The encoded query then holds the entry [type=both],
    respectively [type=] the supplied string, and it is the query of the
    request URL as long as the client's config override supplies no [url]
    of its own. *)
Theorem getOrderBook_defaults_missing_type_to_both :
  forall (E : Externals) (configOverride : option obj) (params : obj)
         (clock : Z) (transport : obj -> value + value) (w : world),
    let query := BittrexClient.orderBookParams params in
    let config := Bittrex.privateConfig configOverride in
    BittrexClient.getOrderBook E configOverride params
      = Bittrex.getPublicEndpoint E "public/getorderbook" (VObj query)
                                  configOverride
    /\ lookup "type" query
         = Some (if truthy (get params "type") then get params "type"
                 else VStr "both")
    /\ (forall k, k <> "type" -> lookup k query = lookup k (spread [] params))
    /\ (lookup "type" params = None ->
        In (uri_encode E "type" ++ "=" ++ uri_encode E "both")
           (qs_pairs E query))
    /\ (forall s, lookup "type" params = Some (VStr s) -> s <> "" ->
        In (uri_encode E "type" ++ "=" ++ uri_encode E s) (qs_pairs E query))
    /\ exists cfg : obj,
         snd (run clock transport
                  (BittrexClient.getOrderBook E configOverride params) w)
           = {| auth := auth w; wire := List.app (wire w) [cfg] |}
         /\ (lookup "url" (optional configOverride) = None ->
             lookup "url" cfg
               = Some (VStr (to_string E (get config "version")
                             ++ "/public/getorderbook?"
                             ++ qs_stringify E (VObj query)))).
Proof.
  intros E configOverride params clock transport w query config.
  assert (Htype : lookup "type" query
                  = Some (if truthy (get params "type")
                          then get params "type" else VStr "both"))
    by apply lookup_set_prop_same.
  split; [reflexivity |].
  split; [exact Htype |].
  split.
  { intros k Hk. unfold query, BittrexClient.orderBookParams.
    now apply lookup_set_prop_other. }
  split.
  { intros Habs. apply qs_pairs_string_entry.
    rewrite Htype. unfold get. now rewrite Habs. }
  split.
  { intros s Hs Hne. apply qs_pairs_string_entry.
    rewrite Htype. unfold get. rewrite Hs. simpl.
    apply String.eqb_neq in Hne. now rewrite Hne. }
  eexists. split.
  - simpl. destruct (transport _); reflexivity.
  - intros Hno.
    rewrite lookup_spread_absent
      by (apply bittrex_config_absent; [reflexivity | exact Hno]).
    reflexivity.
Qed.

(** The witness of C9: the order book of BTC-LTC asked for without a type,
    on a client without config override. *)
Lemma getOrderBook_defaults_missing_type_to_both_witness :
  lookup "type" [("market", VStr "BTC-LTC")] = None
  /\ In "type=both"
        (qs_pairs sample
           (BittrexClient.orderBookParams [("market", VStr "BTC-LTC")])).
Proof.
  split; [reflexivity |].
  destruct (getOrderBook_defaults_missing_type_to_both sample None
              [("market", VStr "BTC-LTC")] 0 (answering VNull)
              (BittrexClient.getClient None))
    as [_ [_ [_ [Hboth _]]]].
  exact (Hboth eq_refl).
Defined.

(** C9, as stated, fails: a supplied type that is the empty string is not
    used unchanged, the request asks for [type=both]. *)
Lemma getOrderBook_replaces_empty_type :
  let params := [("market", VStr "BTC-LTC"); ("type", VStr "")] in
  lookup "type" params = Some (VStr "")
  /\ lookup "type" (BittrexClient.orderBookParams params) <> Some (VStr "")
  /\ map (lookup "url")
         (wire (snd (run 0 (answering VNull)
                         (BittrexClient.getOrderBook sample None params)
                         (BittrexClient.getClient None))))
       = [Some (VStr "v1.1/public/getorderbook?market=BTC-LTC&type=both")].
Proof.
  split; [reflexivity |].
  split; [vm_compute; discriminate | reflexivity].
Qed.

(** C10.  On an upgraded client, whatever the caller's parameters hold, the
    query that is signed and sent has [apiKey] = the stored public key and
    [nonce] = the clock reading times 1000, each listed once; the caller's
    other parameters are kept.  The signature is taken over the URI with
    that query, keyed by the stored private key. *)
Theorem private_query_overwrites_apiKey_and_nonce :
  forall (E : Externals) (clock : Z) (transport : obj -> value + value)
         (keys : IApiAuth) (sent : list obj) (endpoint : string)
         (params configOverride : option obj),
    let config := Bittrex.privateConfig configOverride in
    let query := Bittrex.scrubbedParams keys clock params in
    let uri := Bittrex.privateUri E config endpoint in
    let sig := Bittrex.signMessage E uri (VObj query) (privateKey keys) in
    snd (run clock transport
             (Bittrex.getPrivateEndpoint E endpoint params configOverride)
             {| auth := Some keys; wire := sent |})
      = {| auth := Some keys;
           wire := List.app sent [Bittrex.privateAgentRequest sig config] |}
    /\ lookup "apiKey" query = Some (VStr (publicKey keys))
    /\ lookup "nonce" query = Some (VNum (clock * 1000))
    /\ NoDup (map fst query)
    /\ (forall k, k <> "apiKey" -> k <> "nonce" ->
          lookup k query = lookup k (spread [] (optional params)))
    /\ In (uri_encode E "apiKey" ++ "=" ++ uri_encode E (publicKey keys))
          (qs_pairs E query)
    /\ In (uri_encode E "nonce" ++ "="
           ++ uri_encode E (number_to_string E (clock * 1000)))
          (qs_pairs E query)
    /\ Bittrex.fullUrl sig = uri ++ "?" ++ qs_stringify E (VObj query)
    /\ Bittrex.digest sig
         = hmac_hex E sha512 (privateKey keys) (Bittrex.fullUrl sig).
Proof.
  intros E clock transport keys sent endpoint params configOverride
         config query uri sig.
  assert (Hshape : query
                   = set_prop "nonce" (VNum (clock * 1000))
                       (set_prop "apiKey" (VStr (publicKey keys))
                          (spread [] (optional params))))
    by reflexivity.
  assert (Hkey : lookup "apiKey" query = Some (VStr (publicKey keys))).
  { rewrite Hshape. rewrite lookup_set_prop_other by discriminate.
    apply lookup_set_prop_same. }
  assert (Hnonce : lookup "nonce" query = Some (VNum (clock * 1000))).
  { rewrite Hshape. apply lookup_set_prop_same. }
  split; [apply bittrex_private_request |].
  split; [exact Hkey |].
  split; [exact Hnonce |].
  split.
  { rewrite Hshape. do 2 apply set_prop_NoDup.
    apply spread_NoDup. constructor. }
  split.
  { intros k Hk Hn. rewrite Hshape.
    now rewrite !lookup_set_prop_other by assumption. }
  split; [apply qs_pairs_string_entry; exact Hkey |].
  split; [apply qs_pairs_number_entry; exact Hnonce |].
  split; reflexivity.
Qed.

(** The witness of C10: a caller passing its own [apiKey] and [nonce]
    along with a market. *)
Lemma private_query_overwrites_apiKey_and_nonce_witness :
  let params :=
    Some [("apiKey", VStr "forged"); ("market", VStr "BTC-LTC");
          ("nonce", VNum 1)] in
  let query := Bittrex.scrubbedParams sample_keys 1500000000000 params in
  lookup "apiKey" query = Some (VStr "k")
  /\ lookup "nonce" query = Some (VNum 1500000000000000)
  /\ lookup "market" query = Some (VStr "BTC-LTC").
Proof.
  destruct (private_query_overwrites_apiKey_and_nonce sample 1500000000000
              (answering VNull) sample_keys [] "market/getopenorders"
              (Some [("apiKey", VStr "forged"); ("market", VStr "BTC-LTC");
                     ("nonce", VNum 1)]) None)
    as [_ [Hkey [Hnonce [_ [Hother _]]]]].
  split; [exact Hkey |]. split; [exact Hnonce |].
  cbv zeta. rewrite Hother by discriminate. reflexivity.
Defined.

(* ================================================================== *)
(** ** Further properties of the dispatchers *)
(* ================================================================== *)

Lemma lookup_not_listed (k : string) (o : obj) :
  ~ In k (map fst o) -> lookup k o = None.
Proof.
  induction o as [| [k0 v0] tl IH]; simpl; intros Hn.
  - reflexivity.
  - destruct (String.eqb k k0) eqn:Hk.
    + apply String.eqb_eq in Hk. subst. tauto.
    + apply IH. tauto.
Qed.

(** A property of the spread object wins over the base. *)
Lemma lookup_spread_wins (k : string) (v : value) (src base : obj) :
  NoDup (map fst src) -> lookup k src = Some v ->
  lookup k (spread base src) = Some v.
Proof.
  unfold spread. revert base.
  induction src as [| [k' v'] tl IH]; simpl; intros base Hnd Hl.
  - discriminate.
  - inversion Hnd as [| ? ? Hnotin Hnd']; subst.
    destruct (String.eqb k k') eqn:Hk.
    + apply String.eqb_eq in Hk. subst k'. injection Hl as ->.
      fold (spread (set_prop k v base) tl).
      rewrite lookup_spread_absent by now apply lookup_not_listed.
      apply lookup_set_prop_same.
    + now apply IH.
Qed.

Lemma bittrex_config_NoDup (configOverride : option obj) :
  NoDup (map fst (Bittrex.privateConfig configOverride)).
Proof.
  unfold Bittrex.privateConfig. do 2 apply spread_NoDup. constructor.
Qed.

(** The merged Bittrex config holds the override's value for a key the
    override lists. *)
Lemma bittrex_config_override (k : string) (v : value)
      (configOverride : option obj) :
  NoDup (map fst (optional configOverride)) ->
  lookup k (optional configOverride) = Some v ->
  lookup k (Bittrex.privateConfig configOverride) = Some v.
Proof.
  intros Hnd Hl. unfold Bittrex.privateConfig.
  now apply lookup_spread_wins.
Qed.

(** What a run of each dispatcher does on a client that holds keys (for the
    public ones: on any client): one request goes out and the promise
    settles from the transport's answer. *)
Lemma gemini_public_run (E : Externals) (clock : Z)
      (transport : obj -> value + value) (w : world) (endpoint : string)
      (queryParams : value) (configOverride : option obj) :
  let cfg := gemini_public_request E endpoint queryParams configOverride in
  run clock transport
      (Gemini.getPublicEndpoint E endpoint queryParams configOverride) w
    = (match transport cfg with
       | inr response => Resolved response
       | inl err => Rejected (Thrown err)
       end,
       {| auth := auth w; wire := List.app (wire w) [cfg] |}).
Proof.
  cbv zeta. unfold Gemini.getPublicEndpoint. cbn [run].
  change (set_prop "url" _ (spread [] Gemini.publicAgentConfig))
    with (gemini_public_request E endpoint queryParams configOverride).
  destruct (transport _); reflexivity.
Qed.

Lemma bittrex_public_run (E : Externals) (clock : Z)
      (transport : obj -> value + value) (w : world) (endpoint : string)
      (queryParams : value) (configOverride : option obj) :
  let cfg := bittrex_public_request E endpoint queryParams configOverride in
  run clock transport
      (Bittrex.getPublicEndpoint E endpoint queryParams configOverride) w
    = (match transport cfg with
       | inr response => Resolved response
       | inl err => Rejected (Thrown err)
       end,
       {| auth := auth w; wire := List.app (wire w) [cfg] |}).
Proof.
  cbv zeta. unfold Bittrex.getPublicEndpoint. cbn [run].
  change (spread (set_prop "url" _ (spread [] Bittrex.publicAgentConfig)) _)
    with (bittrex_public_request E endpoint queryParams configOverride).
  destruct (transport _); reflexivity.
Qed.

Lemma gemini_private_run (E : Externals) (clock : Z)
      (transport : obj -> value + value) (keys : IApiAuth) (sent : list obj)
      (endpoint : string) (data configOverride : option obj) :
  let cfg := gemini_private_request E clock keys endpoint data configOverride in
  run clock transport
      (Gemini.postToPrivateEndpoint E endpoint data configOverride)
      {| auth := Some keys; wire := sent |}
    = (match transport cfg with
       | inr response => Resolved response
       | inl err => rejection err
       end,
       {| auth := Some keys; wire := List.app sent [cfg] |}).
Proof.
  cbv zeta. unfold Gemini.postToPrivateEndpoint. cbn.
  change (set_prop "data" _ _)
    with (gemini_private_request E clock keys endpoint data configOverride).
  destruct (transport _); reflexivity.
Qed.

Lemma bittrex_private_run (E : Externals) (clock : Z)
      (transport : obj -> value + value) (keys : IApiAuth) (sent : list obj)
      (endpoint : string) (params configOverride : option obj) :
  let cfg := bittrex_signed_request E clock keys endpoint params configOverride in
  run clock transport
      (Bittrex.getPrivateEndpoint E endpoint params configOverride)
      {| auth := Some keys; wire := sent |}
    = (match transport cfg with
       | inr response => Resolved response
       | inl err => rejection err
       end,
       {| auth := Some keys; wire := List.app sent [cfg] |}).
Proof.
  cbv zeta. unfold Bittrex.getPrivateEndpoint. cbn.
  change (Bittrex.privateAgentRequest _ _)
    with (bittrex_signed_request E clock keys endpoint params configOverride).
  destruct (transport _); reflexivity.
Qed.

(** X1.  A public call (Gemini or Bittrex) needs no keys: on any client it
    hands one request to the transport, the same whether keys are stored or
    not, resolves with the transport's response as it is, rejects with the
    transport's error as it is (the normalization of the private calls is
    not applied), and leaves the stored keys alone. *)
Theorem public_call_settles_from_transport :
  forall (E : Externals) (clock : Z) (transport : obj -> value + value)
         (endpoint : string) (queryParams : value)
         (configOverride : option obj),
  exists gemini bittrex : obj,
    forall (stored : option IApiAuth) (sent : list obj),
      let w := {| auth := stored; wire := sent |} in
      run clock transport
          (Gemini.getPublicEndpoint E endpoint queryParams configOverride) w
        = (match transport gemini with
           | inr response => Resolved response
           | inl err => Rejected (Thrown err)
           end,
           {| auth := stored; wire := List.app sent [gemini] |})
      /\ run clock transport
             (Bittrex.getPublicEndpoint E endpoint queryParams configOverride)
             w
           = (match transport bittrex with
              | inr response => Resolved response
              | inl err => Rejected (Thrown err)
              end,
              {| auth := stored; wire := List.app sent [bittrex] |}).
Proof.
  intros E clock transport endpoint queryParams configOverride.
  exists (gemini_public_request E endpoint queryParams configOverride).
  exists (bittrex_public_request E endpoint queryParams configOverride).
  intros stored sent w. split.
  - apply (gemini_public_run E clock transport w).
  - apply (bittrex_public_run E clock transport w).
Qed.

(** X2.  A private call on a client that holds keys hands exactly one
    request to the transport; it resolves with the transport's response as
    it is, and on a transport error rejects with the normalized reason. *)
Theorem private_call_settles_from_transport :
  forall (E : Externals) (clock : Z) (transport : obj -> value + value)
         (keys : IApiAuth) (sent : list obj) (endpoint : string)
         (args configOverride : option obj),
    let w := {| auth := Some keys; wire := sent |} in
    let gemini :=
      gemini_private_request E clock keys endpoint args configOverride in
    let bittrex :=
      bittrex_signed_request E clock keys endpoint args configOverride in
    run clock transport
        (Gemini.postToPrivateEndpoint E endpoint args configOverride) w
      = (match transport gemini with
         | inr response => Resolved response
         | inl err => rejection err
         end,
         {| auth := Some keys; wire := List.app sent [gemini] |})
    /\ run clock transport
           (Bittrex.getPrivateEndpoint E endpoint args configOverride) w
         = (match transport bittrex with
            | inr response => Resolved response
            | inl err => rejection err
            end,
            {| auth := Some keys; wire := List.app sent [bittrex] |}).
Proof.
  intros. split.
  - apply gemini_private_run.
  - apply bittrex_private_run.
Qed.

(** X3.  Where the transport error carries a response object whose body can
    be read for an [error] field, the rejection reason is the first truthy
    value among that field, the body and the response: a falsy [error]
    (absent, empty string, 0, false, null) falls through to the body, and a
    falsy body (the empty string, 0, false) falls through to the response
    object. *)
Theorem rejection_reason_is_first_truthy :
  forall (err response : obj) (body error : value),
    get err "response" = VObj response ->
    get response "data" = body ->
    member body "error" = inr error ->
    rejectionReason (VObj err)
      = inr (if truthy error then error
             else if truthy body then body
                  else VObj response).
Proof.
  intros err response body error Hr Hd He.
  unfold rejectionReason. simpl. rewrite Hr. simpl. rewrite Hd.
  rewrite He. simpl. unfold or_else.
  destruct (truthy error) eqn:Hte; simpl; rewrite ?Hte; simpl.
  - reflexivity.
  - destruct (truthy body) eqn:Htb; simpl; rewrite ?Htb; reflexivity.
Qed.

(** The witness of X3: a 502 answered with a plain-text body, and one
    answered with an empty body. *)
Lemma rejection_reason_is_first_truthy_witness :
  rejectionReason
    (VObj [("response", VObj [("status", VNum 502);
                              ("data", VStr "Bad Gateway")])])
    = inr (VStr "Bad Gateway")
  /\ rejectionReason
       (VObj [("response", VObj [("status", VNum 502); ("data", VStr "")])])
       = inr (VObj [("status", VNum 502); ("data", VStr "")]).
Proof.
  split.
  - exact (rejection_reason_is_first_truthy
             [("response", VObj [("status", VNum 502);
                                 ("data", VStr "Bad Gateway")])]
             [("status", VNum 502); ("data", VStr "Bad Gateway")]
             (VStr "Bad Gateway") VUndefined eq_refl eq_refl eq_refl).
  - exact (rejection_reason_is_first_truthy
             [("response", VObj [("status", VNum 502); ("data", VStr "")])]
             [("status", VNum 502); ("data", VStr "")]
             (VStr "") VUndefined eq_refl eq_refl eq_refl).
Defined.

(** X4.  In the Bittrex client the config override is spread last into the
    request configuration, so every property the override lists (timeout,
    method, baseURL, url, headers, ...) is the request's, for public and
    for private calls alike. *)
Theorem bittrex_override_wins_over_computed_fields :
  forall (E : Externals) (clock : Z) (keys : IApiAuth) (endpoint : string)
         (queryParams : value) (params : option obj) (override : obj)
         (k : string) (v : value),
    NoDup (map fst override) ->
    lookup k override = Some v ->
    lookup k (bittrex_public_request E endpoint queryParams (Some override))
      = Some v
    /\ lookup k (bittrex_signed_request E clock keys endpoint params
                                        (Some override))
         = Some v.
Proof.
  intros E clock keys endpoint queryParams params override k v Hnd Hl.
  pose proof (bittrex_config_override k v (Some override) Hnd Hl) as Hc.
  split.
  - unfold bittrex_public_request.
    apply lookup_spread_wins; [apply bittrex_config_NoDup | exact Hc].
  - unfold bittrex_signed_request, Bittrex.privateAgentRequest.
    apply lookup_spread_wins; [apply bittrex_config_NoDup | exact Hc].
Qed.

(** The witness of X4: a client created with a timeout of one second. *)
Lemma bittrex_override_wins_over_computed_fields_witness :
  lookup "timeout"
         (bittrex_public_request sample "public/getmarkets" VNull
                                 (Some [("timeout", VNum 1000)]))
    = Some (VNum 1000)
  /\ lookup "timeout"
            (bittrex_signed_request sample 1 sample_keys "account/getbalances"
                                    None (Some [("timeout", VNum 1000)]))
       = Some (VNum 1000).
Proof.
  apply (bittrex_override_wins_over_computed_fields sample 1 sample_keys
           "account/getbalances" VNull None [("timeout", VNum 1000)]
           "timeout" (VNum 1000)).
  - repeat constructor. simpl. tauto.
  - reflexivity.
Defined.

(** X5.  Where the override leaves them alone, a Bittrex request (public or
    private) has the agent defaults: base URL [https://bittrex.com/api],
    method GET (private calls are GETs too) and the timeout of 3000. *)
Theorem bittrex_request_keeps_agent_defaults :
  forall (E : Externals) (clock : Z) (keys : IApiAuth) (endpoint : string)
         (queryParams : value) (params configOverride : option obj)
         (k : string),
    In k ["baseURL"; "method"; "timeout"] ->
    lookup k (optional configOverride) = None ->
    lookup k (bittrex_public_request E endpoint queryParams configOverride)
      = lookup k Bittrex.defaultAgentConfig
    /\ lookup k (bittrex_signed_request E clock keys endpoint params
                                        configOverride)
         = lookup k Bittrex.defaultAgentConfig.
Proof.
  intros E clock keys endpoint queryParams params configOverride k Hin Hno.
  unfold bittrex_public_request, bittrex_signed_request,
    Bittrex.privateAgentRequest.
  simpl in Hin. destruct Hin as [<- | [<- | [<- | []]]].
  - rewrite !lookup_spread_absent
      by (apply bittrex_config_absent; [reflexivity | exact Hno]).
    split; reflexivity.
  - rewrite !lookup_spread_absent
      by (apply bittrex_config_absent; [reflexivity | exact Hno]).
    split; reflexivity.
  - assert (Hc : lookup "timeout" (Bittrex.privateConfig configOverride)
                 = Some (VNum 3000)).
    { unfold Bittrex.privateConfig.
      rewrite lookup_spread_absent by exact Hno. reflexivity. }
    split; apply lookup_spread_wins;
      solve [apply bittrex_config_NoDup | exact Hc].
Qed.

(** The witness of X5: the method of a private call on a client whose
    override only sets a timeout. *)
Lemma bittrex_request_keeps_agent_defaults_witness :
  lookup "method"
         (bittrex_signed_request sample 1 sample_keys "market/cancel"
            (Some [("uuid", VStr "1")]) (Some [("timeout", VNum 1000)]))
    = Some (VStr "GET").
Proof.
  apply (bittrex_request_keeps_agent_defaults sample 1 sample_keys
           "market/cancel" VNull (Some [("uuid", VStr "1")])
           (Some [("timeout", VNum 1000)]) "method").
  - simpl. tauto.
  - reflexivity.
Defined.

Lemma string_append_assoc (a b c : string) :
  (a ++ b) ++ c = a ++ (b ++ c).
Proof.
  induction a as [| ch a IH]; simpl; [reflexivity | now rewrite IH].
Qed.

Lemma bittrex_default_version (configOverride : option obj) :
  lookup "version" (optional configOverride) = None ->
  get (Bittrex.privateConfig configOverride) "version" = VStr "v1.1".
Proof.
  intros Hno. unfold get, Bittrex.privateConfig.
  rewrite lookup_spread_absent by exact Hno. reflexivity.
Qed.

Lemma bittrex_public_url (E : Externals) (endpoint : string)
      (queryParams : value) (configOverride : option obj) :
  lookup "url" (optional configOverride) = None ->
  lookup "version" (optional configOverride) = None ->
  lookup "url" (bittrex_public_request E endpoint queryParams configOverride)
    = Some (VStr ("v1.1/" ++ endpoint ++ "?" ++ qs_stringify E queryParams)).
Proof.
  intros Hurl Hver. unfold bittrex_public_request.
  rewrite lookup_spread_absent
    by (apply bittrex_config_absent; [reflexivity | exact Hurl]).
  rewrite lookup_set_prop_same.
  unfold bittrex_public_uri. rewrite bittrex_default_version by exact Hver.
  reflexivity.
Qed.

(** X6.  A [rootUrl] in the override does not move public Bittrex calls:
    the request URL stays relative ([v1.1/endpoint?query]) and the base URL
    stays [https://bittrex.com/api], whatever root the override names, as
    long as it sets neither [url], [version] nor [baseURL]. *)
Theorem bittrex_public_call_ignores_rootUrl :
  forall (E : Externals) (endpoint : string) (queryParams : value)
         (configOverride : option obj),
    lookup "url" (optional configOverride) = None ->
    lookup "version" (optional configOverride) = None ->
    lookup "baseURL" (optional configOverride) = None ->
    let cfg := bittrex_public_request E endpoint queryParams configOverride in
    lookup "url" cfg
      = Some (VStr ("v1.1/" ++ endpoint ++ "?" ++ qs_stringify E queryParams))
    /\ lookup "baseURL" cfg = Some (VStr "https://bittrex.com/api").
Proof.
  intros E endpoint queryParams configOverride Hurl Hver Hbase cfg.
  split.
  - now apply bittrex_public_url.
  - unfold cfg, bittrex_public_request.
    rewrite lookup_spread_absent
      by (apply bittrex_config_absent; [reflexivity | exact Hbase]).
    reflexivity.
Qed.

(** The witness of X6: a client pointed at another root. *)
Lemma bittrex_public_call_ignores_rootUrl_witness :
  let cfg :=
    bittrex_public_request sample "public/getmarkets" VNull
      (Some [("rootUrl", VStr "https://testnet.example/api")]) in
  lookup "url" cfg = Some (VStr "v1.1/public/getmarkets?")
  /\ lookup "baseURL" cfg = Some (VStr "https://bittrex.com/api").
Proof.
  exact (bittrex_public_call_ignores_rootUrl sample "public/getmarkets" VNull
           (Some [("rootUrl", VStr "https://testnet.example/api")])
           eq_refl eq_refl eq_refl).
Defined.

(** X7.  The URI a private Bittrex call signs is absolute: the override's
    [rootUrl] and [version] where it lists them, the defaults
    [https://bittrex.com/api] and [v1.1] otherwise, then the endpoint and
    the encoded query; unless the override carries a [url], that URI is the
    request's URL. *)
Theorem bittrex_private_url_follows_rootUrl_and_version :
  forall (E : Externals) (clock : Z) (keys : IApiAuth) (endpoint : string)
         (params : option obj) (override : obj),
    NoDup (map fst override) ->
    let root :=
      match lookup "rootUrl" override with
      | Some r => to_string E r
      | None => "https://bittrex.com/api"
      end in
    let version :=
      match lookup "version" override with
      | Some x => to_string E x
      | None => "v1.1"
      end in
    let config := Bittrex.privateConfig (Some override) in
    let sig := Bittrex.signatureData E keys clock config endpoint params in
    Bittrex.fullUrl sig
      = root ++ "/" ++ version ++ "/" ++ endpoint ++ "?"
        ++ qs_stringify E (VObj (Bittrex.scrubbedParams keys clock params))
    /\ (lookup "url" override = None ->
        lookup "url" (bittrex_signed_request E clock keys endpoint params
                                             (Some override))
          = Some (VStr (Bittrex.fullUrl sig))).
Proof.
  intros E clock keys endpoint params override Hnd root version config sig.
  assert (Hroot : to_string E (get config "rootUrl") = root).
  { unfold root, get, config.
    destruct (lookup "rootUrl" override) as [r |] eqn:Hr.
    - now rewrite (bittrex_config_override "rootUrl" r (Some override) Hnd Hr).
    - unfold Bittrex.privateConfig.
      rewrite lookup_spread_absent by exact Hr. reflexivity. }
  assert (Hver : to_string E (get config "version") = version).
  { unfold version, get, config.
    destruct (lookup "version" override) as [x |] eqn:Hx.
    - now rewrite (bittrex_config_override "version" x (Some override) Hnd Hx).
    - unfold Bittrex.privateConfig.
      rewrite lookup_spread_absent by exact Hx. reflexivity. }
  split.
  - unfold sig, Bittrex.signatureData, Bittrex.signMessage.
    cbn [Bittrex.fullUrl]. unfold Bittrex.privateUri.
    rewrite Hroot, Hver.
    rewrite !string_append_assoc. reflexivity.
  - intros Hno. unfold bittrex_signed_request, Bittrex.privateAgentRequest.
    rewrite lookup_spread_absent
      by (apply (bittrex_config_absent "url" (Some override));
          [reflexivity | exact Hno]).
    apply lookup_set_prop_same.
Qed.

(** The witness of X7: a client pointed at another root, cancelling an
    order. *)
Lemma bittrex_private_url_follows_rootUrl_and_version_witness :
  lookup "url"
         (bittrex_signed_request sample 2 sample_keys "market/cancel"
            (Some [("uuid", VStr "7")])
            (Some [("rootUrl", VStr "https://testnet.example/api")]))
    = Some (VStr
        "https://testnet.example/api/v1.1/market/cancel?uuid=7&apiKey=k&nonce=2000").
Proof.
  destruct (bittrex_private_url_follows_rootUrl_and_version sample 2
              sample_keys "market/cancel" (Some [("uuid", VStr "7")])
              [("rootUrl", VStr "https://testnet.example/api")])
    as [_ Hurl].
  - repeat constructor. simpl. tauto.
  - exact (Hurl eq_refl).
Defined.

Lemma gemini_config_version (E : Externals) (override : obj) :
  NoDup (map fst override) ->
  to_string E (get (gemini_config (Some override)) "version")
    = match lookup "version" override with
      | Some x => to_string E x
      | None => "v1"
      end.
Proof.
  intros Hnd. unfold get, gemini_config.
  destruct (lookup "version" override) as [x |] eqn:Hx.
  - now rewrite (lookup_spread_wins "version" x override _ Hnd Hx).
  - rewrite lookup_spread_absent by exact Hx. reflexivity.
Qed.

(** X8.  In the Gemini client the override's [version] is the one field
    that reaches the request: the public URL is [version/endpoint?query],
    the private URL is [/version/endpoint], and that private path is also
    the [request] field of the signed body; without a [version] in the
    override the version is [v1]. *)
Theorem gemini_version_override_reaches_the_url :
  forall (E : Externals) (clock : Z) (keys : IApiAuth) (endpoint : string)
         (queryParams : value) (data : option obj) (override : obj),
    NoDup (map fst override) ->
    let version :=
      match lookup "version" override with
      | Some x => to_string E x
      | None => "v1"
      end in
    lookup "url" (gemini_public_request E endpoint queryParams (Some override))
      = Some (VStr (version ++ "/" ++ endpoint ++ "?"
                    ++ qs_stringify E queryParams))
    /\ lookup "url" (gemini_private_request E clock keys endpoint data
                                            (Some override))
         = Some (VStr ("/" ++ version ++ "/" ++ endpoint))
    /\ lookup "request"
              (gemini_body E clock
                 (gemini_private_uri E endpoint (Some override)) data)
         = Some (VStr ("/" ++ version ++ "/" ++ endpoint)).
Proof.
  intros E clock keys endpoint queryParams data override Hnd version.
  pose proof (gemini_config_version E override Hnd) as Hv.
  fold version in Hv.
  split; [| split].
  - unfold gemini_public_request, gemini_public_uri. rewrite Hv. reflexivity.
  - unfold gemini_private_request, gemini_private_uri. cbv zeta.
    rewrite Hv. reflexivity.
  - unfold gemini_body, gemini_private_uri. rewrite Hv.
    apply lookup_set_prop_same.
Qed.

(** The witness of X8: a client asked to talk to version [v2]. *)
Lemma gemini_version_override_reaches_the_url_witness :
  lookup "url"
         (gemini_private_request sample 1 sample_keys "balances" None
                                 (Some [("version", VStr "v2")]))
    = Some (VStr "/v2/balances").
Proof.
  destruct (gemini_version_override_reaches_the_url sample 1 sample_keys
              "balances" VNull None [("version", VStr "v2")])
    as [_ [Hurl _]].
  - repeat constructor. simpl. tauto.
  - exact Hurl.
Defined.


(** X10.  On a client whose override sets neither [url] nor [version], the
    public operations of the Bittrex catalog ask for their fixed paths
    under [v1.1]: the operations without argument with an empty query (the
    URL ends in the question mark), the per-market operations with the
    single entry [market=symbol]. *)
Theorem catalog_public_operations_urls :
  forall (E : Externals) (clock : Z) (transport : obj -> value + value)
         (w : world) (configOverride : option obj) (marketSymbol : string),
    lookup "url" (optional configOverride) = None ->
    lookup "version" (optional configOverride) = None ->
    let urls p :=
      map (lookup "url")
          (skipn (length (wire w)) (wire (snd (run clock transport p w)))) in
    let market :=
      uri_encode E "market" ++ "=" ++ uri_encode E marketSymbol in
    urls (BittrexClient.getMarkets E configOverride)
      = [Some (VStr "v1.1/public/getmarkets?")]
    /\ urls (BittrexClient.getCurrencies E configOverride)
         = [Some (VStr "v1.1/public/getcurrencies?")]
    /\ urls (BittrexClient.getMarketSummaries E configOverride)
         = [Some (VStr "v1.1/public/getmarketsummaries?")]
    /\ urls (BittrexClient.getTickerTape E configOverride marketSymbol)
         = [Some (VStr ("v1.1/public/getticker?" ++ market))]
    /\ urls (BittrexClient.getMarketSummary E configOverride marketSymbol)
         = [Some (VStr ("v1.1/public/getmarketsummary?" ++ market))]
    /\ urls (BittrexClient.getMarketHistory E configOverride marketSymbol)
         = [Some (VStr ("v1.1/public/getmarkethistory?" ++ market))].
Proof.
  intros E clock transport w configOverride marketSymbol Hurl Hver urls market.
  assert (Hskip : forall cfg : obj,
             skipn (length (wire w)) (List.app (wire w) [cfg]) = [cfg]).
  { intros cfg. rewrite skipn_app, skipn_all, Nat.sub_diag. reflexivity. }
  unfold urls, BittrexClient.getMarkets, BittrexClient.getCurrencies,
    BittrexClient.getMarketSummaries, BittrexClient.getTickerTape,
    BittrexClient.getMarketSummary, BittrexClient.getMarketHistory.
  rewrite !bittrex_public_run. cbn [snd wire].
  rewrite !Hskip. cbn [map].
  rewrite !bittrex_public_url by assumption.
  repeat split; reflexivity.
Qed.

(** The witness of X10: the ticker of BTC-LTC on a plain client. *)
Lemma catalog_public_operations_urls_witness :
  map (lookup "url")
      (wire (snd (run 0 (answering VNull)
                      (BittrexClient.getTickerTape sample None "BTC-LTC")
                      (BittrexClient.getClient None))))
    = [Some (VStr "v1.1/public/getticker?market=BTC-LTC")].
Proof.
  destruct (catalog_public_operations_urls sample 0 (answering VNull)
              (BittrexClient.getClient None) None "BTC-LTC" eq_refl eq_refl)
    as [_ [_ [_ [Hticker _]]]].
  exact Hticker.
Defined.

(** X11.  The four catalog operations with an optional filter
    ([getOpenOrders], [getOrderHistory], [getWithdrawalHistory],
    [getDepositHistory]) sign and send a query that holds the filter
    followed by [apiKey] and [nonce] when the filter is given, and [apiKey]
    and [nonce] alone when it is omitted: an omitted filter leaves no entry
    in the signed query. *)
Theorem omitted_filter_is_left_out_of_the_signed_query :
  forall (E : Externals) (clock : Z) (transport : obj -> value + value)
         (keys : IApiAuth) (sent : list obj) (configOverride : option obj)
         (filter : option string),
    let w := {| auth := Some keys; wire := sent |} in
    let query key :=
      Bittrex.scrubbedParams keys clock
        (Some [(key, BittrexClient.optional_string filter)]) in
    let entries key :=
      List.app
        match filter with
        | Some x => [uri_encode E key ++ "=" ++ uri_encode E x]
        | None => []
        end
        [uri_encode E "apiKey" ++ "=" ++ uri_encode E (publicKey keys);
         uri_encode E "nonce" ++ "="
         ++ uri_encode E (number_to_string E (clock * 1000))] in
    let sends p endpoint key :=
      wire (snd (run clock transport p w))
        = List.app sent
            [bittrex_signed_request E clock keys endpoint
               (Some [(key, BittrexClient.optional_string filter)])
               configOverride]
      /\ Bittrex.fullUrl
           (Bittrex.signatureData E keys clock
              (Bittrex.privateConfig configOverride) endpoint
              (Some [(key, BittrexClient.optional_string filter)]))
         = Bittrex.privateUri E (Bittrex.privateConfig configOverride) endpoint
           ++ "?" ++ String.concat "&" (entries key)
      /\ qs_pairs E (query key) = entries key in
    sends (BittrexClient.getOpenOrders E configOverride filter)
          "market/getopenorders" "market"
    /\ sends (BittrexClient.getOrderHistory E configOverride filter)
             "account/getorderhistory" "market"
    /\ sends (BittrexClient.getWithdrawalHistory E configOverride filter)
             "account/getwithdrawalhistory" "currency"
    /\ sends (BittrexClient.getDepositHistory E configOverride filter)
             "account/getdeposithistory" "currency".
Proof.
  intros E clock transport keys sent configOverride filter w query entries
         sends.
  unfold sends, BittrexClient.getOpenOrders, BittrexClient.getOrderHistory,
    BittrexClient.getWithdrawalHistory, BittrexClient.getDepositHistory, w.
  rewrite !bittrex_private_run. cbn [snd wire].
  unfold entries, query.
  destruct filter; repeat split; reflexivity.
Qed.

Lemma qs_pairs_app (E : Externals) (a b : obj) :
  qs_pairs E (List.app a b) = List.app (qs_pairs E a) (qs_pairs E b).
Proof.
  unfold qs_pairs. apply flat_map_app.
Qed.

(** Assigning two keys the object does not have appends them in turn. *)
Lemma set_two_fresh (o : obj) (k1 k2 : string) (v1 v2 : value) :
  lookup k1 o = None -> lookup k2 o = None -> k2 <> k1 ->
  set_prop k2 v2 (set_prop k1 v1 o) = List.app o [(k1, v1); (k2, v2)].
Proof.
  intros H1 H2 Hne.
  rewrite (set_prop_fresh o k1 v1) by assumption.
  rewrite set_prop_fresh.
  - now rewrite <- app_assoc.
  - rewrite lookup_app_absent by assumption.
    simpl. apply String.eqb_neq in Hne. now rewrite Hne.
Qed.

(** X12.  When the caller's parameters list each key once and hold neither
    [apiKey] nor [nonce], the signed Bittrex query is the caller's
    parameters in the caller's order followed by [apiKey] and then [nonce],
    and so are its encoded entries. *)
Theorem signed_query_keeps_the_callers_order :
  forall (E : Externals) (clock : Z) (keys : IApiAuth) (params : obj),
    NoDup (map fst params) ->
    lookup "apiKey" params = None ->
    lookup "nonce" params = None ->
    Bittrex.scrubbedParams keys clock (Some params)
      = List.app params
          [("apiKey", VStr (publicKey keys)); ("nonce", VNum (clock * 1000))]
    /\ qs_pairs E (Bittrex.scrubbedParams keys clock (Some params))
         = List.app (qs_pairs E params)
             [uri_encode E "apiKey" ++ "=" ++ uri_encode E (publicKey keys);
              uri_encode E "nonce" ++ "="
              ++ uri_encode E (number_to_string E (clock * 1000))].
Proof.
  intros E clock keys params Hnd Hkey Hnonce.
  assert (Hshape : Bittrex.scrubbedParams keys clock (Some params)
                   = List.app params
                       [("apiKey", VStr (publicKey keys));
                        ("nonce", VNum (clock * 1000))]).
  { unfold Bittrex.scrubbedParams, Bittrex.securityParams. simpl optional.
    rewrite copy_well_formed by assumption.
    unfold spread. simpl fold_left.
    now apply set_two_fresh. }
  split; [exact Hshape |].
  rewrite Hshape, qs_pairs_app. reflexivity.
Qed.

(** The witness of X12: a limit order. *)
Lemma signed_query_keeps_the_callers_order_witness :
  qs_stringify sample
    (VObj (Bittrex.scrubbedParams sample_keys 3
             (Some [("market", VStr "BTC-LTC"); ("quantity", VStr "1.5");
                    ("rate", VStr "0.01")])))
    = "market=BTC-LTC&quantity=1.5&rate=0.01&apiKey=k&nonce=3000".
Proof.
  destruct (signed_query_keeps_the_callers_order sample 3 sample_keys
              [("market", VStr "BTC-LTC"); ("quantity", VStr "1.5");
               ("rate", VStr "0.01")])
    as [Hshape _].
  - repeat constructor; simpl; intuition discriminate.
  - reflexivity.
  - reflexivity.
  - apply (f_equal (fun query => qs_stringify sample (VObj query))) in Hshape.
    exact Hshape.
Defined.

(** X13.  When the post data lists each key once and holds neither [nonce]
    nor [request], the body Gemini serializes and signs is the post data in
    the caller's order followed by [nonce] and then [request]. *)
Theorem gemini_body_keeps_the_callers_order :
  forall (E : Externals) (clock : Z) (transport : obj -> value + value)
         (w : world) (path secret : string) (postData : obj),
    NoDup (map fst postData) ->
    lookup "nonce" postData = None ->
    lookup "request" postData = None ->
    let body :=
      List.app postData
        [("nonce", VStr (number_to_string E clock)); ("request", VStr path)] in
    run clock transport (Gemini.signMessage E path (Some postData) secret) w
      = ({| Gemini.payload := base64 E (JSON_stringify E (VObj body));
            Gemini.digest :=
              hmac_hex E sha384 secret
                       (base64 E (JSON_stringify E (VObj body))) |}, w).
Proof.
  intros E clock transport w path secret postData Hnd Hnonce Hreq body.
  unfold Gemini.signMessage. cbn [run]. simpl optional.
  rewrite copy_well_formed by assumption.
  rewrite set_two_fresh by (assumption || discriminate).
  reflexivity.
Qed.

(** The witness of X13: signing a new order. *)
Lemma gemini_body_keeps_the_callers_order_witness :
  fst (run 5 (answering VNull)
           (Gemini.signMessage sample "/v1/order/new"
              (Some [("symbol", VStr "btcusd"); ("amount", VStr "1")]) "s")
           (Gemini.getClient None))
    = {| Gemini.payload := "base64(json{symbol,amount,nonce,request})";
         Gemini.digest :=
           "hmac-sha384(s,base64(json{symbol,amount,nonce,request}))" |}.
Proof.
  assert (Hnd : NoDup (map fst [("symbol", VStr "btcusd");
                               ("amount", VStr "1")]))
    by (repeat constructor; simpl; intuition discriminate).
  exact (f_equal fst
           (gemini_body_keeps_the_callers_order sample 5 (answering VNull)
              (Gemini.getClient None) "/v1/order/new" "s"
              [("symbol", VStr "btcusd"); ("amount", VStr "1")]
              Hnd eq_refl eq_refl)).
Defined.

(** X14.  Without [headers] in the override, the headers of a private
    Bittrex request are exactly the three base headers followed by
    [apisign], the hex HMAC-SHA512 of the signed URL keyed by the private
    key. *)
Theorem bittrex_private_headers_without_override :
  forall (E : Externals) (clock : Z) (keys : IApiAuth) (endpoint : string)
         (params configOverride : option obj),
    lookup "headers" (optional configOverride) = None ->
    let config := Bittrex.privateConfig configOverride in
    let sig := Bittrex.signatureData E keys clock config endpoint params in
    lookup "headers"
           (bittrex_signed_request E clock keys endpoint params configOverride)
      = Some (VObj
          [("Cache-Control", VStr "no-cache");
           ("Content-Type", VStr "application/json");
           ("User-Agent",
            VStr "Bittrex API Client (bittrex-cryptoexchange-api node package)");
           ("apisign",
            VStr (hmac_hex E sha512 (privateKey keys) (Bittrex.fullUrl sig)))]).
Proof.
  intros E clock keys endpoint params configOverride Hno config sig.
  pose proof (bittrex_config_absent "headers" configOverride eq_refl Hno)
    as Habs.
  unfold bittrex_signed_request, Bittrex.privateAgentRequest.
  rewrite lookup_spread_absent by exact Habs.
  rewrite lookup_set_prop_other by discriminate.
  rewrite lookup_set_prop_same.
  unfold Bittrex.privateHeaders, Bittrex.headersOverride, get.
  rewrite Habs. reflexivity.
Qed.

(** The witness of X14: the balances of the sample client. *)
Lemma bittrex_private_headers_without_override_witness :
  request_header
    (bittrex_signed_request sample 1 sample_keys "account/getbalances"
                            None None) "apisign"
    = Some (VStr
        "hmac-sha512(s,https://bittrex.com/api/v1.1/account/getbalances?apiKey=k&nonce=1000)").
Proof.
  unfold request_header.
  rewrite (bittrex_private_headers_without_override sample 1 sample_keys
             "account/getbalances" None None eq_refl).
  reflexivity.
Defined.

(** X15.  No operation of the Bittrex catalog other than [upgrade] touches
    the stored keys, and each private operation hands the transport one
    request when keys are stored and none when they are not; requests
    handed over earlier stay recorded. *)
Theorem catalog_operations_keep_the_keys :
  forall (E : Externals) (clock : Z) (transport : obj -> value + value)
         (w : world) (configOverride : option obj)
         (op : BittrexClient.private_operation) (params : obj),
    let after p := snd (run clock transport p w) in
    auth (after (BittrexClient.invoke E configOverride op)) = auth w
    /\ match auth w with
       | Some _ =>
           exists cfg : obj,
             wire (after (BittrexClient.invoke E configOverride op))
               = List.app (wire w) [cfg]
       | None =>
           wire (after (BittrexClient.invoke E configOverride op)) = wire w
       end
    /\ auth (after (BittrexClient.getOrderBook E configOverride params))
         = auth w
    /\ auth (after (BittrexClient.getMarkets E configOverride)) = auth w.
Proof.
  intros E clock transport w configOverride op params after.
  unfold after.
  split; [| split; [| split]].
  - destruct op; apply only_upgrade_changes_the_keys; exact VNull.
  - destruct w as [[keys |] sent]; cbn [auth].
    + destruct op; cbn [BittrexClient.invoke];
        unfold BittrexClient.placeLimitBuy, BittrexClient.placeLimitSell,
          BittrexClient.cancelOrder, BittrexClient.getOpenOrders,
          BittrexClient.getAccountBalances, BittrexClient.getBalance,
          BittrexClient.getDepositAddress, BittrexClient.withdrawCrypto,
          BittrexClient.getOrder, BittrexClient.getOrderHistory,
          BittrexClient.getWithdrawalHistory, BittrexClient.getDepositHistory;
        rewrite bittrex_private_run; eexists; reflexivity.
    + destruct op; reflexivity.
  - unfold BittrexClient.getOrderBook. cbv zeta.
    now rewrite bittrex_public_run.
  - unfold BittrexClient.getMarkets. now rewrite bittrex_public_run.
Qed.

Lemma set_prop_same_value (k : string) (v : value) (o : obj) :
  lookup k o = Some v -> set_prop k v o = o.
Proof.
  induction o as [| [k0 v0] tl IH]; simpl; intros Hl.
  - discriminate.
  - destruct (String.eqb k k0) eqn:Hk.
    + now injection Hl as ->.
    + now rewrite IH.
Qed.

(** X16.  [getOrderBook] leaves well-formed parameters with a truthy
    [type] exactly as the caller gave them, and appends [type: both] at the
    end of parameters that have no [type]; so a call with only a market
    asks for [market=...&type=both]. *)
Theorem orderBookParams_keeps_the_callers_order :
  forall (E : Externals) (params : obj),
    NoDup (map fst params) ->
    (forall v, lookup "type" params = Some v -> truthy v = true ->
               BittrexClient.orderBookParams params = params)
    /\ (lookup "type" params = None ->
        BittrexClient.orderBookParams params
          = List.app params [("type", VStr "both")]
        /\ qs_pairs E (BittrexClient.orderBookParams params)
             = List.app (qs_pairs E params)
                 [uri_encode E "type" ++ "=" ++ uri_encode E "both"]).
Proof.
  intros E params Hnd. unfold BittrexClient.orderBookParams.
  rewrite copy_well_formed by assumption.
  split.
  - intros v Hl Ht. unfold get. rewrite Hl, Ht.
    now apply set_prop_same_value.
  - intros Habs. unfold get. rewrite Habs. simpl truthy. cbv iota.
    rewrite set_prop_fresh by assumption.
    split; [reflexivity |].
    rewrite qs_pairs_app. reflexivity.
Qed.

(** The witness of X16: the order book of BTC-LTC, without and with a
    type. *)
Lemma orderBookParams_keeps_the_callers_order_witness :
  qs_pairs sample (BittrexClient.orderBookParams [("market", VStr "BTC-LTC")])
    = ["market=BTC-LTC"; "type=both"]
  /\ BittrexClient.orderBookParams
       [("type", VStr "sell"); ("market", VStr "BTC-LTC")]
       = [("type", VStr "sell"); ("market", VStr "BTC-LTC")].
Proof.
  split.
  - destruct (orderBookParams_keeps_the_callers_order sample
                [("market", VStr "BTC-LTC")]) as [_ Habsent].
    + repeat constructor; simpl; intuition discriminate.
    + destruct (Habsent eq_refl) as [_ Hentries]. exact Hentries.
  - destruct (orderBookParams_keeps_the_callers_order sample
                [("type", VStr "sell"); ("market", VStr "BTC-LTC")])
      as [Hpresent _].
    + repeat constructor; simpl; intuition discriminate.
    + exact (Hpresent (VStr "sell") eq_refl eq_refl).
Defined.
